(** * Anchr: webhook relay — event distribution and forwarding pipeline

    A shallow embedding of the TypeScript sources
    ([shared/types.ts], [shared/utils.ts], [server/webhook.ts],
    [server/websocket.ts], [cli/client.ts], [cli/forwarder.ts],
    [cli/index.ts]) followed by the properties of the pipeline.

    Conventions of the embedding:
    - a JS [number] holding a counter, a status code or a millisecond
      time stamp is a [Z]; a [Date] is its epoch value in milliseconds;
    - a JS [string] is a [string]; [undefined]-able fields are [option]s;
    - a [Record<string,string>] is a [gmap string string];
    - an array is a [list];
    - code with side effects threads an explicit world (clock, output
      trace) through the calls. *)

From Stdlib Require Import ZArith String Ascii List Lia.
From stdpp Require Import base option list gmap fin_maps strings pretty.

Local Open Scope string_scope.
Local Open Scope list_scope.
Local Open Scope Z_scope.

(** ** JavaScript primitives used by the sources *)

Module Js.

(** [s.startsWith(p)]: [p] is a literal prefix of [s]. *)
Definition startsWith (s p : string) : bool := String.prefix p s.

(** [xs.includes(x)] on an array of strings. *)
Fixpoint includes (xs : list string) (x : string) : bool :=
  match xs with
  | [] => false
  | y :: ys => if String.eqb x y then true else includes ys x
  end.

(** [xs.some(p)]. *)
Fixpoint some {A} (p : A -> bool) (xs : list A) : bool :=
  match xs with
  | [] => false
  | x :: rest => if p x then true else some p rest
  end.

(** [a || b] where [a : string | undefined] and [b : string]: the
    left operand is kept unless it is falsy ([undefined] or the empty
    string). *)
Definition or_else (a : option string) (b : string) : string :=
  match a with
  | Some s => if String.eqb s "" then b else s
  | None => b
  end.

(** Truthiness of [string | undefined]. *)
Definition truthy (a : option string) : bool :=
  match a with
  | Some s => negb (String.eqb s "")
  | None => false
  end.

(** [a || b] where both operands are [string | undefined]. *)
Definition or (a b : option string) : option string :=
  if truthy a then a else b.

(** [n || d] where [n : number | undefined]: zero is falsy. *)
Definition num_or (n : option Z) (d : Z) : Z :=
  match n with
  | Some v => if Z.eqb v 0 then d else v
  | None => d
  end.

(** [String.prototype.toLowerCase] restricted to ASCII letters, which
    is what it does on HTTP header names (tokens are ASCII). *)
Definition lower_ascii (c : ascii) : ascii :=
  let n := nat_of_ascii c in
  if ((65 <=? n) && (n <=? 90))%nat then ascii_of_nat (n + 32) else c.

Fixpoint toLowerCase (s : string) : string :=
  match s with
  | EmptyString => EmptyString
  | String c rest => String (lower_ascii c) (toLowerCase rest)
  end.

End Js.

(** ** shared/types.ts *)

Module Types.

(** The request body is [any] and is never interpreted by the
    pipeline; the only thing the code observes of it is
    [JSON.stringify(body)], which is [undefined] for an [undefined]
    body and a text otherwise. *)
Inductive Body : Type :=
| BodyUndefined
| BodyJson (text : string).

Record WebhookEvent : Type := mkWebhookEvent {
  id : string;
  timestamp : Z;
  source : string;
  endpoint : string;
  headers : gmap string string;
  body : Body;
  method : string;
  ip : string;
  userAgent : option string
}.

Record ClientConfig : Type := mkClientConfig {
  serverUrl : string;
  forwardEndpoints : list string;
  subscribeEndpoints : option (list string);
  reconnectInterval : option Z;
  maxRetries : option Z
}.

Record ConnectionStatus : Type := mkConnectionStatus {
  connected : bool;
  lastConnected : option Z;
  reconnectAttempts : Z;
  error : option string
}.

Record ForwardResult : Type := mkForwardResult {
  success : bool;
  fr_endpoint : string;
  statusCode : option Z;
  fr_error : option string;
  responseTime : option Z
}.

Record ServerStats : Type := mkServerStats {
  totalEvents : Z;
  activeConnections : Z;
  uptime : Z;
  lastEvent : option Z
}.

End Types.

(** ** Events as values at run time *)

Module Runtime.
Import Types.

(** What the [timestamp] field of an event holds at run time. Its type
    says [Date], and the gateway builds it as one; an event that has
    travelled over the real-time channel was serialized to JSON on the
    way, so on the subscriber's side the field holds the ISO string. *)
Inductive TimestampValue : Type :=
| DateObject
| IsoString.

Record Event : Type := mkEvent {
  fields : WebhookEvent;
  timestamp_value : TimestampValue
}.

(** An event built in this process, with a [Date]. *)
Definition built (event : WebhookEvent) : Event :=
  {| fields := event; timestamp_value := DateObject |}.

(** An event as a subscriber receives it from the channel. *)
Definition received (event : WebhookEvent) : Event :=
  {| fields := event; timestamp_value := IsoString |}.

(** [event.timestamp.toISOString()]: a [TypeError] when the field holds
    a string, which has no such method. *)
Definition toISOString (event : Event) : string + Z :=
  match timestamp_value event with
  | DateObject => inr (timestamp (fields event))
  | IsoString => inl "event.timestamp.toISOString is not a function"
  end.

End Runtime.

(** ** shared/utils.ts *)

Module Utils.
Import Types.

Definition REDACTED : string := "[REDACTED]".

Definition sensitiveHeaders : list string :=
  ["authorization"; "cookie"; "x-api-key"; "x-auth-token"].

Section Sanitize.
(** [String.prototype.toLowerCase] is a platform function; header
    sanitization is defined, and verified, for any lowercasing. *)
Variable toLowerCase : string -> string.

(** One iteration of the [for (const [key, value] of
    Object.entries(headers))] loop. *)
Definition sanitize_entry (key value : string)
    (sanitized : gmap string string) : gmap string string :=
  if Js.includes sensitiveHeaders (toLowerCase key)
  then <[key := REDACTED]> sanitized
  else <[key := value]> sanitized.

(** The loop starts from the empty object and visits every entry of
    [headers] once (the keys of an object are distinct; header names
    are ordinary property names). *)
Definition sanitizeHeaders (headers : gmap string string)
    : gmap string string :=
  map_fold sanitize_entry ∅ headers.
End Sanitize.

(** [createWebhookEvent]; [generateEventId()] and [new Date()] are the
    two values it draws from the environment. *)
Definition createWebhookEvent (uuid : string) (now : Z)
    (source endpoint : string) (headers : gmap string string)
    (body : Body) (method ip : string) (userAgent : option string)
    : WebhookEvent :=
  {| id := uuid;
     timestamp := now;
     source := source;
     endpoint := endpoint;
     headers := headers;
     body := body;
     method := method;
     ip := ip;
     userAgent := userAgent |}.

End Utils.

(** ** server/webhook.ts — the ingestion gateway *)

Module Webhook.
Import Types Utils.

(** What [handleWebhook] reads of the Express request. [req_headers]
    is [req.headers], whose keys Node has already lowercased. *)
Record Request : Type := mkRequest {
  req_headers : gmap string string;
  req_ip : option string;
  req_path : string;
  req_method : string;
  req_body : Body
}.

(** [req.get(name)]: case-insensitive header lookup. *)
Definition req_get (req : Request) (name : string) : option string :=
  req_headers req !! Js.toLowerCase name.

(** The two JSON bodies the handler sends. *)
Inductive ResponseBody : Type :=
| AckBody (eventId : string) (timestamp : Z)
| ErrorBody (error : string).

Inductive Effect : Type :=
| LogReceived (eventId endpoint method source : string) (bodySize : Z)
| LogError (message : string)
| Respond (status : Z) (payload : ResponseBody)
| Notify (event : WebhookEvent)
| Next.

(** The world a call runs in: the clock, the number of identifiers
    drawn so far, whether the response of this call has been sent, and
    the effects performed so far (oldest first). *)
Record World : Type := mkWorld {
  now : Z;
  uuid_count : nat;
  headersSent : bool;
  trace : list Effect
}.

(** Computations that read and update the world and may throw. *)
Definition M (A : Type) : Type := World -> (string + A) * World.

Definition ret {A} (a : A) : M A := fun w => (inr a, w).

Definition throw {A} (message : string) : M A := fun w => (inl message, w).

Definition bind {A B} (m : M A) (k : A -> M B) : M B :=
  fun w =>
    match m w with
    | (inl e, w1) => (inl e, w1)
    | (inr a, w1) => k a w1
    end.

Definition try_catch {A} (m : M A) (handler : string -> M A) : M A :=
  fun w =>
    match m w with
    | (inl e, w1) => handler e w1
    | (inr a, w1) => (inr a, w1)
    end.

Notation "x <- m ;; k" := (bind m (fun x => k))
  (at level 100, m at next level, right associativity).

Definition emit (e : Effect) : M unit :=
  fun w => (inr tt, {| now := now w; uuid_count := uuid_count w;
                       headersSent := headersSent w;
                       trace := trace w ++ [e] |}).

(** [res.status(code).json(payload)]: Node refuses to send a second
    response on the same call. *)
Definition res_status_json (status : Z) (payload : ResponseBody) : M unit :=
  fun w =>
    if headersSent w
    then (inl "Cannot set headers after they are sent to the client", w)
    else (inr tt, {| now := now w; uuid_count := uuid_count w;
                     headersSent := true;
                     trace := trace w ++ [Respond status payload] |}).

(** [JSON.stringify(body)] *)
Definition JSON_stringify (b : Body) : option string :=
  match b with
  | BodyUndefined => None
  | BodyJson text => Some text
  end.

(** [JSON.stringify(body).length]: a [TypeError] on [undefined]. *)
Definition bodySize (b : Body) : M Z :=
  match JSON_stringify b with
  | None => throw "Cannot read properties of undefined (reading 'length')"
  | Some text => ret (Z.of_nat (String.length text))
  end.

Section Receiver.
(** [uuidv4()]: the n-th identifier produced by the generator. *)
Variable uuidv4 : nat -> string.

(** The registered callback, if any; [Some message] when the call
    throws. *)
Variable eventCallback : option (WebhookEvent -> option string).

Definition generateEventId : M string :=
  fun w => (inr (uuidv4 (uuid_count w)),
            {| now := now w; uuid_count := S (uuid_count w);
               headersSent := headersSent w; trace := trace w |}).

Definition new_Date : M Z := fun w => (inr (now w), w).

(** [req.get('X-Forwarded-For') || req.ip || 'unknown'] *)
Definition resolve_source (req : Request) : string :=
  Js.or_else (Js.or (req_get req "X-Forwarded-For") (req_ip req))
    "unknown".

(** Lines 135-150: the event built from the request. *)
Definition build_event (req : Request) : M WebhookEvent :=
  let source := resolve_source req in
  let userAgent := req_get req "User-Agent" in
  let endpoint := req_path req in
  let method := req_method req in
  let headers := sanitizeHeaders Js.toLowerCase (req_headers req) in
  let body := req_body req in
  uuid <- generateEventId ;;
  date <- new_Date ;;
  ret (createWebhookEvent uuid date source endpoint headers body
         method source userAgent).

Definition invoke_callback (event : WebhookEvent) : M unit :=
  match eventCallback with
  | Some callback =>
      _ <- emit (Notify event) ;;
      match callback event with
      | Some message => throw message
      | None => ret tt
      end
  | None => ret tt
  end.

(** The [try] block of [handleWebhook]. *)
Definition handleWebhook_try (req : Request) : M unit :=
  event <- build_event req ;;
  size <- bodySize (req_body req) ;;
  _ <- emit (LogReceived (id event) (req_path req) (req_method req)
               (resolve_source req) size) ;;
  _ <- res_status_json 200 (AckBody (id event) (timestamp event)) ;;
  invoke_callback event.

(** The [catch] block of [handleWebhook]. *)
Definition handleWebhook_catch (message : string) : M unit :=
  _ <- emit (LogError message) ;;
  res_status_json 500 (ErrorBody "Internal server error").

Definition handleWebhook (req : Request) : M unit :=
  try_catch (handleWebhook_try req) handleWebhook_catch.

(** [getMiddleware()]: only POST requests reach the handler. *)
Definition getMiddleware (req : Request) : M unit :=
  if String.eqb (req_method req) "POST"
  then handleWebhook req
  else emit Next.

End Receiver.

End Webhook.

(** ** server/websocket.ts — the broadcast hub *)

Module WebSocketServer.
Import Types.

(** Messages pushed to subscribers over the real-time channel. *)
Inductive Message : Type :=
| StatsMsg (stats : ServerStats)
| WebhookMsg (event : WebhookEvent)
| PongMsg (timestamp : Z).

Inductive LogEntry : Type :=
| ClientConnected (socketId : string) (activeConnections : Z)
| ClientDisconnected (socketId : string) (activeConnections : Z)
| BroadcastingEvent (eventId endpoint source : string)
    (activeConnections : Z).

(** The hub: its counters, its start time, the sockets the transport
    currently holds open ([io]'s connected sockets, in connection
    order), every message handed to the transport so far with the
    socket it was addressed to, and the log. *)
Record Hub : Type := mkHub {
  stats : ServerStats;
  startTime : Z;
  sockets : list string;
  outbox : list (string * Message);
  log : list LogEntry
}.

(** The constructor. *)
Definition create (now : Z) : Hub :=
  {| stats := {| totalEvents := 0; activeConnections := 0;
                 uptime := 0; lastEvent := None |};
     startTime := now;
     sockets := [];
     outbox := [];
     log := [] |}.

Definition getStats (now : Z) (h : Hub) : ServerStats :=
  {| totalEvents := totalEvents (stats h);
     activeConnections := activeConnections (stats h);
     uptime := now - startTime h;
     lastEvent := lastEvent (stats h) |}.

(** [socket.emit(...)]: to that socket only. *)
Definition socket_emit (socketId : string) (m : Message) (h : Hub) : Hub :=
  {| stats := stats h; startTime := startTime h; sockets := sockets h;
     outbox := outbox h ++ [(socketId, m)]; log := log h |}.

(** [io.emit(...)]: to every socket currently connected. *)
Definition io_emit (m : Message) (h : Hub) : Hub :=
  {| stats := stats h; startTime := startTime h; sockets := sockets h;
     outbox := outbox h ++ map (fun socketId => (socketId, m)) (sockets h);
     log := log h |}.

Definition set_stats (s : ServerStats) (h : Hub) : Hub :=
  {| stats := s; startTime := startTime h; sockets := sockets h;
     outbox := outbox h; log := log h |}.

Definition logger_info (e : LogEntry) (h : Hub) : Hub :=
  {| stats := stats h; startTime := startTime h; sockets := sockets h;
     outbox := outbox h; log := log h ++ [e] |}.

(** The ['connection'] handler; the transport has already added the
    socket to its connected set. *)
Definition on_connection (now : Z) (socketId : string) (h : Hub) : Hub :=
  let h0 := {| stats := stats h; startTime := startTime h;
               sockets := sockets h ++ [socketId];
               outbox := outbox h; log := log h |} in
  let h1 := set_stats
              {| totalEvents := totalEvents (stats h0);
                 activeConnections := activeConnections (stats h0) + 1;
                 uptime := uptime (stats h0);
                 lastEvent := lastEvent (stats h0) |} h0 in
  let h2 := logger_info
              (ClientConnected socketId (activeConnections (stats h1))) h1 in
  socket_emit socketId (StatsMsg (getStats now h2)) h2.

(** The ['disconnect'] handler of a socket. *)
Definition on_disconnect (socketId : string) (h : Hub) : Hub :=
  let h0 := {| stats := stats h; startTime := startTime h;
               sockets := filter (fun s => s <> socketId) (sockets h);
               outbox := outbox h; log := log h |} in
  let h1 := set_stats
              {| totalEvents := totalEvents (stats h0);
                 activeConnections := activeConnections (stats h0) - 1;
                 uptime := uptime (stats h0);
                 lastEvent := lastEvent (stats h0) |} h0 in
  logger_info
    (ClientDisconnected socketId (activeConnections (stats h1))) h1.

(** The ['ping'] handler of a socket. *)
Definition on_ping (now : Z) (socketId : string) (h : Hub) : Hub :=
  socket_emit socketId (PongMsg now) h.

(** The body of the [setInterval] callback of [startStatsUpdate]. *)
Definition stats_tick (now : Z) (h : Hub) : Hub :=
  set_stats
    {| totalEvents := totalEvents (stats h);
       activeConnections := activeConnections (stats h);
       uptime := now - startTime h;
       lastEvent := lastEvent (stats h) |} h.

Definition broadcastEvent (event : WebhookEvent) (h : Hub) : Hub :=
  let h1 := set_stats
              {| totalEvents := totalEvents (stats h) + 1;
                 activeConnections := activeConnections (stats h);
                 uptime := uptime (stats h);
                 lastEvent := lastEvent (stats h) |} h in
  let h2 := set_stats
              {| totalEvents := totalEvents (stats h1);
                 activeConnections := activeConnections (stats h1);
                 uptime := uptime (stats h1);
                 lastEvent := Some (timestamp event) |} h1 in
  let h3 := logger_info
              (BroadcastingEvent (id event) (endpoint event) (source event)
                 (activeConnections (stats h2))) h2 in
  io_emit (WebhookMsg event) h3.

Definition getActiveConnections (h : Hub) : Z := activeConnections (stats h).

Definition getTotalEvents (h : Hub) : Z := totalEvents (stats h).

End WebSocketServer.

(** ** cli/client.ts — the subscriber session *)

Module WebSocketClient.
Import Types.

(** Events the transport delivers to the handlers registered in
    [connect]. *)
Inductive SocketEvent : Type :=
| OnConnect
| OnDisconnect (reason : string)
| OnConnectError (message : string)
| OnReconnect (attemptNumber : Z)
| OnReconnectAttempt (attemptNumber : Z)
| OnReconnectFailed
| OnWebhook (event : WebhookEvent)
| OnStats (totalEvents activeConnections : Z)
| OnPong (timestamp : string).

Inductive LogLevel : Type := Info | Warn | Error | Debug.

Inductive Effect : Type :=
| Log (level : LogLevel) (message : string)
| OpenSocket (url : string) (reconnectionAttempts reconnectionDelay : Z)
| CloseSocket
| EmitPing
| StatusCallback (status : ConnectionStatus)
| EventCallback (event : WebhookEvent)
| Resolve
| Reject (message : string).

(** The [socket] field: [null], or the Socket created by [connect],
    which has its own [connected] flag, kept by the transport. *)
Inductive SocketRef : Type :=
| NoSocket
| Socket (is_connected : bool).

(** The fields of the class; a registered callback is represented by
    the fact that it is registered, its invocations by effects. *)
Record Client : Type := mkClient {
  socket : SocketRef;
  config : ClientConfig;
  status : ConnectionStatus;
  reconnectAttempts_field : Z;
  eventCallback : bool;
  statusCallback : bool
}.

Definition create (config : ClientConfig) : Client :=
  {| socket := NoSocket;
     config := config;
     status := {| connected := false; lastConnected := None;
                  reconnectAttempts := 0; error := None |};
     reconnectAttempts_field := 0;
     eventCallback := false;
     statusCallback := false |}.

Definition setEventCallback (c : Client) : Client :=
  {| socket := socket c; config := config c; status := status c;
     reconnectAttempts_field := reconnectAttempts_field c;
     eventCallback := true; statusCallback := statusCallback c |}.

Definition setStatusCallback (c : Client) : Client :=
  {| socket := socket c; config := config c; status := status c;
     reconnectAttempts_field := reconnectAttempts_field c;
     eventCallback := eventCallback c; statusCallback := true |}.

Definition set_status (s : ConnectionStatus) (c : Client) : Client :=
  {| socket := socket c; config := config c; status := s;
     reconnectAttempts_field := reconnectAttempts_field c;
     eventCallback := eventCallback c;
     statusCallback := statusCallback c |}.

(** [updateStatus()]: the callback, when registered, receives a copy
    of the status. *)
Definition updateStatus (c : Client) : list Effect :=
  if statusCallback c then [StatusCallback (status c)] else [].

(** [connect()] up to the registration of the handlers. *)
Definition connect (c : Client) : Client * list Effect :=
  ({| socket := Socket false; config := config c; status := status c;
      reconnectAttempts_field := reconnectAttempts_field c;
      eventCallback := eventCallback c;
      statusCallback := statusCallback c |},
   [Log Info ("Connecting to " +:+ serverUrl (config c) +:+ "...");
    OpenSocket (serverUrl (config c))
      (Js.num_or (maxRetries (config c)) 5)
      (Js.num_or (reconnectInterval (config c)) 1000)]).

(** The ['disconnect'] handler. *)
Definition on_disconnect (reason : string) (c : Client)
    : Client * list Effect :=
  let c1 := set_status
              {| connected := false;
                 lastConnected := lastConnected (status c);
                 reconnectAttempts := reconnectAttempts (status c);
                 error := Some reason |} c in
  (c1, [Log Warn ("Disconnected from server: " +:+ reason)]
         ++ updateStatus c1).

(** The handlers registered by [connect], by event. [now] is the value
    of [new Date()] at the time the handler runs. *)
Definition handlers (now : Z) (e : SocketEvent) (c : Client)
    : Client * list Effect :=
  match e with
  | OnConnect =>
      let c1 := set_status
                  {| connected := true;
                     lastConnected := Some now;
                     reconnectAttempts := 0;
                     error := None |} c in
      (c1, [Log Info "Connected to server"] ++ updateStatus c1 ++ [Resolve])
  | OnDisconnect reason => on_disconnect reason c
  | OnConnectError message =>
      let c1 := set_status
                  {| connected := false;
                     lastConnected := lastConnected (status c);
                     reconnectAttempts := reconnectAttempts (status c);
                     error := Some message |} c in
      let c2 := {| socket := socket c1; config := config c1;
                   status := status c1;
                   reconnectAttempts_field := reconnectAttempts_field c1 + 1;
                   eventCallback := eventCallback c1;
                   statusCallback := statusCallback c1 |} in
      (c2, [Log Error ("Connection error: " +:+ message)]
             ++ updateStatus c2 ++ [Reject message])
  | OnReconnect attemptNumber =>
      let c1 := set_status
                  {| connected := true;
                     lastConnected := Some now;
                     reconnectAttempts := attemptNumber;
                     error := None |} c in
      (c1, [Log Info ("Reconnected after " +:+ pretty attemptNumber
                        +:+ " attempts")]
             ++ updateStatus c1)
  | OnReconnectAttempt attemptNumber =>
      let c1 := set_status
                  {| connected := connected (status c);
                     lastConnected := lastConnected (status c);
                     reconnectAttempts := attemptNumber;
                     error := error (status c) |} c in
      (c1, [Log Info ("Reconnection attempt " +:+ pretty attemptNumber)]
             ++ updateStatus c1)
  | OnReconnectFailed =>
      let c1 := set_status
                  {| connected := false;
                     lastConnected := lastConnected (status c);
                     reconnectAttempts := reconnectAttempts (status c);
                     error := Some "Max reconnection attempts reached" |} c in
      (c1, [Log Error "Failed to reconnect after maximum attempts"]
             ++ updateStatus c1)
  | OnWebhook event =>
      (c, [Log Info ("Received webhook event: " +:+ id event)]
            ++ (if eventCallback c then [EventCallback event] else []))
  | OnStats total active =>
      (c, [Log Info ("Server stats: " +:+ pretty total +:+ " events, "
                       +:+ pretty active +:+ " connections")])
  | OnPong timestamp =>
      (c, [Log Debug ("Pong received: " +:+ timestamp)])
  end.

(** The Socket's own [connected] flag at the time it emits [e]: set
    just before ['connect'], cleared just before ['disconnect']. *)
Definition socket_emitting (e : SocketEvent) (s : SocketRef) : SocketRef :=
  match s, e with
  | Socket _, OnConnect => Socket true
  | Socket _, OnDisconnect _ => Socket false
  | _, _ => s
  end.

(** The Socket emits [e]: it updates its flag and the handler registered
    for [e] runs. *)
Definition handle (now : Z) (e : SocketEvent) (c : Client)
    : Client * list Effect :=
  handlers now e
    {| socket := socket_emitting e (socket c); config := config c;
       status := status c;
       reconnectAttempts_field := reconnectAttempts_field c;
       eventCallback := eventCallback c;
       statusCallback := statusCallback c |}.

(** [disconnect()]. [this.socket.disconnect()] on a connected Socket
    closes it and emits ['disconnect'] with the reason
    ["io client disconnect"] before it returns, so the handler above
    runs first; on a Socket that is not connected it emits nothing. *)
Definition disconnect (c : Client) : Client * list Effect :=
  match socket c with
  | Socket is_connected =>
      let '(c0, emitted) :=
        if is_connected
        then on_disconnect "io client disconnect" c
        else (c, []) in
      let c1 := {| socket := NoSocket; config := config c0;
                   status := {| connected := false;
                                lastConnected := lastConnected (status c0);
                                reconnectAttempts :=
                                  reconnectAttempts (status c0);
                                error := error (status c0) |};
                   reconnectAttempts_field := reconnectAttempts_field c0;
                   eventCallback := eventCallback c0;
                   statusCallback := statusCallback c0 |} in
      (c1, [CloseSocket] ++ emitted ++ updateStatus c1
             ++ [Log Info "Disconnected from server"])
  | NoSocket => (c, [])
  end.

Definition ping (c : Client) : list Effect :=
  match socket c with
  | Socket _ => if connected (status c) then [EmitPing] else []
  | NoSocket => []
  end.

Definition getStatus (c : Client) : ConnectionStatus := status c.

Definition isConnected (c : Client) : bool := connected (status c).

(** What can happen on the connection, and the events the Socket then
    emits to the listeners registered in [connect]. [cli/client.ts]
    imports the API of socket.io-client 3 and later, where a connection
    that is established, for the first time or again after a drop, makes
    the Socket emit ['connect'], and a failed attempt ['connect_error'];
    ['reconnect'], ['reconnect_attempt'] and ['reconnect_failed'] are
    emitted by the Manager, not by the Socket, so the listeners
    registered on the Socket do not hear them. *)
Inductive Occurrence : Type :=
| Established (after_a_drop : bool)
| AttemptFailed (message : string)
| Dropped (reason : string)
| Retrying (attemptNumber : Z)
| GaveUp
| Incoming (event : WebhookEvent)
| StatsPush (totalEvents activeConnections : Z)
| PongReply (timestamp : string).

Definition emitted_for (o : Occurrence) : list SocketEvent :=
  match o with
  | Established _ => [OnConnect]
  | AttemptFailed message => [OnConnectError message]
  | Dropped reason => [OnDisconnect reason]
  | Retrying _ => []
  | GaveUp => []
  | Incoming event => [OnWebhook event]
  | StatsPush total active => [OnStats total active]
  | PongReply timestamp => [OnPong timestamp]
  end.

(** The handlers run for each event emitted, in order. *)
Fixpoint deliver (now : Z) (es : list SocketEvent) (c : Client)
    : Client * list Effect :=
  match es with
  | [] => (c, [])
  | e :: rest =>
      let '(c1, out1) := handle now e c in
      let '(c2, out2) := deliver now rest c1 in
      (c2, out1 ++ out2)
  end.

Definition occur (now : Z) (o : Occurrence) (c : Client)
    : Client * list Effect :=
  deliver now (emitted_for o) c.

End WebSocketClient.

(** ** cli/forwarder.ts — the forwarding engine *)

Module EventForwarder.
Import Types.

(** How an exchange with a target ends, as the HTTP client sees it once
    it has followed redirects: with a final response and its status, or
    with a failure of the transport itself (connection refused, reset,
    too many redirects, ...). *)
Inductive Transport : Type :=
| FinalResponse (status : Z)
| Failed (message : string).

(** One [axios.post] call: target, JSON payload, the [X-Anchr-*]
    headers, the timeout option, and when it was issued and settled. *)
Record Post : Type := mkPost {
  post_url : string;
  post_payload : WebhookEvent;
  post_event_id : string;
  post_source : string;
  post_endpoint : string;
  post_forwarded_at : Z;
  post_timeout : Z;
  post_sent : Z;
  post_settled : Z
}.

Inductive LogLevel : Type := Info | Error.

Record World : Type := mkWorld {
  now : Z;
  posts : list Post;
  log : list (LogLevel * string)
}.

Definition logger (level : LogLevel) (message : string) (w : World)
    : World :=
  {| now := now w; posts := posts w; log := log w ++ [(level, message)] |}.

(** axios' default [validateStatus]: the promise of a request is
    fulfilled only for a 2xx status. *)
Definition validateStatus (status : Z) : bool :=
  (200 <=? status) && (status <? 300).

(** How axios settles a completed exchange under its default
    configuration, from the final response after redirects: fulfilled
    with the response when its status is 2xx, rejected otherwise with an
    error that carries a message. *)
Definition settle (t : Transport) : string + Z :=
  match t with
  | FinalResponse status =>
      if validateStatus status then inr status
      else inl ("Request failed with status code " +:+ pretty status)
  | Failed message => inl message
  end.

Record Forwarder : Type := mkForwarder {
  endpoints : list string;
  timeout : Z
}.

(** The constructor; [timeout] defaults to 5000 ms. *)
Definition create (endpoints : list string) (timeout : option Z)
    : Forwarder :=
  {| endpoints := endpoints; timeout := default 5000 timeout |}.

Section Forwarding.
(** The network: for a target, a payload and the time the request is
    sent, how long the exchange takes, redirects included, and how it
    ends. *)
Variable network : string -> WebhookEvent -> Z -> Z * Transport.

(** [await axios.post(url, data, {timeout, headers})]. A positive
    [timeout] bounds the exchange: when it elapses first the request is
    aborted and the promise rejected; [0] means no bound. A negative
    [timeout] is refused by the platform's timer after the promise has
    been created, and the promise never settles: [None]. *)
Definition axios_post (url : string) (event : WebhookEvent)
    (timeout : Z) (w : World) : option ((string + Z) * World) :=
  if timeout <? 0 then None
  else
    let '(latency, outcome) := network url event (now w) in
    let timed_out := (0 <? timeout) && (timeout <=? latency) in
    let elapsed := if timed_out then timeout else latency in
    let settled :=
      if timed_out
      then inl ("timeout of " +:+ pretty timeout +:+ "ms exceeded")
      else settle outcome in
    Some (settled,
          {| now := now w + elapsed;
             posts := posts w ++
               [{| post_url := url;
                   post_payload := event;
                   post_event_id := id event;
                   post_source := source event;
                   post_endpoint := endpoint event;
                   post_forwarded_at := now w;
                   post_timeout := timeout;
                   post_sent := now w;
                   post_settled := now w + elapsed |}];
             log := log w |}).

(** The [catch] block of [forwardToEndpoint]. *)
Definition forward_failed (endpoint : string) (forwardStartTime : Z)
    (errorMessage : string) (w : World) : ForwardResult * World :=
  let responseTime := now w - forwardStartTime in
  ({| success := false;
      fr_endpoint := endpoint;
      statusCode := None;
      fr_error := Some errorMessage;
      responseTime := Some responseTime |},
   logger Error ("Failed to forward to " +:+ endpoint +:+ ": "
                   +:+ errorMessage) w).

(** [forwardToEndpoint]. Inside the [try], the arguments of
    [axios.post] are evaluated first, and
    [event.timestamp.toISOString()] is one of them: when it throws, no
    request is made. [None] when the call never returns. *)
Definition forwardToEndpoint (fw : Forwarder) (event : Runtime.Event)
    (endpoint : string) (startTime : Z) (w : World)
    : option (ForwardResult * World) :=
  let forwardStartTime := now w in
  let w1 := logger Info ("Forwarding to " +:+ endpoint) w in
  match Runtime.toISOString event with
  | inl errorMessage =>
      Some (forward_failed endpoint forwardStartTime errorMessage w1)
  | inr _ =>
      match axios_post endpoint (Runtime.fields event) (timeout fw) w1 with
      | Some (inr status, w2) =>
          let responseTime := now w2 - forwardStartTime in
          Some ({| success := true;
                   fr_endpoint := endpoint;
                   statusCode := Some status;
                   fr_error := None;
                   responseTime := Some responseTime |},
                logger Info ("Successfully forwarded to " +:+ endpoint
                               +:+ " (" +:+ pretty status +:+ ") in "
                               +:+ pretty responseTime +:+ "ms") w2)
      | Some (inl errorMessage, w2) =>
          Some (forward_failed endpoint forwardStartTime errorMessage w2)
      | None => None
      end
  end.

(** The [for (const endpoint of this.endpoints)] loop, with
    [results.push]; it does not get past an attempt that never
    returns. *)
Fixpoint forward_loop (fw : Forwarder) (event : Runtime.Event)
    (startTime : Z) (targets : list string)
    (results : list ForwardResult) (w : World)
    : option (list ForwardResult * World) :=
  match targets with
  | [] => Some (results, w)
  | endpoint :: rest =>
      match forwardToEndpoint fw event endpoint startTime w with
      | Some (result, w1) =>
          forward_loop fw event startTime rest (results ++ [result]) w1
      | None => None
      end
  end.

Definition forwardEvent (fw : Forwarder) (event : Runtime.Event)
    (w : World) : option (list ForwardResult * World) :=
  let startTime := now w in
  let w1 := logger Info ("Forwarding event " +:+ id (Runtime.fields event)
                           +:+ " to "
                           +:+ pretty (length (endpoints fw))
                           +:+ " endpoints") w in
  forward_loop fw event startTime (endpoints fw) [] w1.

End Forwarding.

Definition addEndpoint (endpoint : string) (fw : Forwarder) : Forwarder :=
  if negb (Js.includes (endpoints fw) endpoint)
  then {| endpoints := endpoints fw ++ [endpoint]; timeout := timeout fw |}
  else fw.

(** [indexOf] followed by [splice(index, 1)]: the first occurrence. *)
Fixpoint remove_first (endpoint : string) (l : list string) : list string :=
  match l with
  | [] => []
  | x :: rest =>
      if String.eqb x endpoint then rest else x :: remove_first endpoint rest
  end.

Definition removeEndpoint (endpoint : string) (fw : Forwarder) : Forwarder :=
  {| endpoints := remove_first endpoint (endpoints fw);
     timeout := timeout fw |}.


Definition setEndpoints (l : list string) (fw : Forwarder) : Forwarder :=
  {| endpoints := l; timeout := timeout fw |}.

End EventForwarder.

(** ** cli/index.ts — event intake of the subscriber *)

Module AnchrCLI.
Import Types.

(** The predicate of [subscribeEndpoints.some(...)]. *)
Definition matches (event : WebhookEvent) (endpoint : string) : bool :=
  String.eqb (Types.endpoint event) endpoint
  || Js.startsWith (Types.endpoint event) endpoint.

(** The endpoint filter at the head of [handleEvent]: [false] when the
    handler returns without processing the event. *)
Definition shouldProcess (event : WebhookEvent)
    (subscribeEndpoints : option (list string)) : bool :=
  match subscribeEndpoints with
  | Some l =>
      if (0 <? length l)%nat then Js.some (matches event) l else true
  | None => true
  end.

Inductive ConsoleLine : Type :=
| EventLine (event : WebhookEvent)
| ForwardedLine (endpoint : string) (statusCode responseTime : option Z)
| FailedLine (endpoint : string) (error : option string)
| DisconnectedLine (error : option string)
| AttemptLine (reconnectAttempts : Z)
| ReconnectedLine.





Definition handleStatusChange (isRunning : bool) (status : ConnectionStatus)
    : list ConsoleLine :=
  if negb (connected status) && isRunning then
    DisconnectedLine (error status) ::
      (if 0 <? reconnectAttempts status
       then [AttemptLine (reconnectAttempts status)] else [])
  else if connected status && (0 <? reconnectAttempts status) then
    [ReconnectedLine]
  else [].

End AnchrCLI.

(** ** shared/utils.ts, shared/types.ts — event filters *)

Module Filters.
Import Types.

(** [EventFilter]: every field is optional. *)
Record EventFilter : Type := mkEventFilter {
  f_source : option string;
  f_endpoint : option string;
  f_method : option string;
  f_headers : option (gmap string string)
}.

(** [filter.x && event.x !== filter.x] *)
Definition differs (wanted : option string) (actual : string) : bool :=
  match wanted with
  | Some s => negb (String.eqb s "") && negb (String.eqb actual s)
  | None => false
  end.

(** The body of the loop over [Object.entries(filter.headers)]:
    [event.headers[key] !== value]. *)
Definition header_differs (event : WebhookEvent) (entry : string * string)
    : bool :=
  match headers event !! entry.1 with
  | Some actual => negb (String.eqb actual entry.2)
  | None => true
  end.

(** The loop returns [false] at the first entry that differs. *)
Fixpoint headers_loop (event : WebhookEvent) (entries : list (string * string))
    : bool :=
  match entries with
  | [] => true
  | entry :: rest =>
      if header_differs event entry then false else headers_loop event rest
  end.

Definition matchesFilter (event : WebhookEvent) (filter : EventFilter)
    : bool :=
  if differs (f_source filter) (source event) then false
  else if differs (f_endpoint filter) (endpoint event) then false
  else if differs (f_method filter) (method event) then false
  else
    match f_headers filter with
    | Some wanted => headers_loop event (map_to_list wanted)
    | None => true
    end.

End Filters.

(** ** server/websocket.ts — the hub driven by its transport *)

Module HubRun.
Import Types WebSocketServer.

(** What can happen to the hub: the transport reports a connection, a
    disconnection or a ping of a socket, the statistics timer fires, or
    the gateway hands over an event. *)
Inductive HubEvent : Type :=
| Connection (now : Z) (socketId : string)
| Disconnection (socketId : string)
| Ping (now : Z) (socketId : string)
| Tick (now : Z)
| Broadcast (event : WebhookEvent).

(** The handler that runs for each of them. *)
Definition step (h : Hub) (e : HubEvent) : Hub :=
  match e with
  | Connection now socketId => on_connection now socketId h
  | Disconnection socketId => on_disconnect socketId h
  | Ping now socketId => on_ping now socketId h
  | Tick now => stats_tick now h
  | Broadcast event => broadcastEvent event h
  end.

Fixpoint run (h : Hub) (es : list HubEvent) : Hub :=
  match es with
  | [] => h
  | e :: rest => run (step h e) rest
  end.

End HubRun.

(** ** cli/client.ts — the session driven by its transport *)

Module SessionRun.
Import Types WebSocketClient.

(** The handlers run one after the other on the events the transport
    delivers, each with the time at which it runs; the effects are
    collected in order. *)
Fixpoint run (es : list (Z * SocketEvent)) (c : Client)
    : Client * list Effect :=
  match es with
  | [] => (c, [])
  | (now, e) :: rest =>
      let '(c1, out1) := handle now e c in
      let '(c2, out2) := run rest c1 in
      (c2, out1 ++ out2)
  end.

End SessionRun.

(** ** server/index.ts — the gateway wired to the hub *)

Module AnchrServer.
Import Types.

Record Server : Type := mkServer {
  gateway : Webhook.World;
  hub : WebSocketServer.Hub
}.

(** The callback registered by [setupEventHandling]:
    [(event) => this.wsServer.broadcastEvent(event)]. Applied to an
    effect of the gateway, it broadcasts the event of a callback
    invocation and ignores everything else. *)
Definition on_effect (h : WebSocketServer.Hub) (e : Webhook.Effect)
    : WebSocketServer.Hub :=
  match e with
  | Webhook.Notify event => WebSocketServer.broadcastEvent event h
  | _ => h
  end.

(** The response object of a new call: nothing sent yet. *)
Definition fresh_response (w : Webhook.World) : Webhook.World :=
  {| Webhook.now := Webhook.now w;
     Webhook.uuid_count := Webhook.uuid_count w;
     Webhook.headersSent := false;
     Webhook.trace := Webhook.trace w |}.

(** One request reaching [app.post('*', getMiddleware())]: the
    middleware runs with the broadcast callback registered, and each
    invocation of the callback is carried out on the hub. *)
Definition post (uuidv4 : nat -> string) (req : Webhook.Request)
    (s : Server) : Server :=
  let w := fresh_response (gateway s) in
  let w' := (Webhook.getMiddleware uuidv4 (Some (fun _ => None)) req w).2 in
  {| gateway := w';
     hub := foldl on_effect (hub s)
              (drop (length (Webhook.trace w)) (Webhook.trace w')) |}.

(** The requests of a run, served one after the other. *)
Fixpoint serve (uuidv4 : nat -> string) (reqs : list Webhook.Request)
    (s : Server) : Server :=
  match reqs with
  | [] => s
  | req :: rest => serve uuidv4 rest (post uuidv4 req s)
  end.

End AnchrServer.

(** ** Vocabulary of the statements *)

Module Spec.

(** The value a header named [key] carries after sanitization, given
    the value it carried before. *)
Definition redacted_value (toLowerCase : string -> string)
    (key value : string) : string :=
  if bool_decide (toLowerCase key ∈
                    ["authorization"; "cookie"; "x-api-key"; "x-auth-token"])
  then "[REDACTED]" else value.

(** The effects a computation of the gateway performs when it is run
    in [w], oldest first. *)
Definition performed {A} (m : Webhook.M A) (w : Webhook.World)
    : list Webhook.Effect :=
  drop (length (Webhook.trace w)) (Webhook.trace (m w).2).

(** [req.get('X-Forwarded-For') || req.ip || 'unknown'], spelled out:
    an empty header value, or an empty peer address, counts as absent. *)
Definition origin (req : Webhook.Request) : string :=
  match Webhook.req_headers req !! "x-forwarded-for" with
  | Some forwarded =>
      if decide (forwarded = "") then
        match Webhook.req_ip req with
        | Some peer => if decide (peer = "") then "unknown" else peer
        | None => "unknown"
        end
      else forwarded
  | None =>
      match Webhook.req_ip req with
      | Some peer => if decide (peer = "") then "unknown" else peer
      | None => "unknown"
      end
  end.

(** The event [handleWebhook] builds for [req] when run in [w]. *)
Definition event_of (uuidv4 : nat -> string) (req : Webhook.Request)
    (w : Webhook.World) : Types.WebhookEvent :=
  Utils.createWebhookEvent (uuidv4 (Webhook.uuid_count w)) (Webhook.now w)
    (Webhook.resolve_source req) (Webhook.req_path req)
    (Utils.sanitizeHeaders Js.toLowerCase (Webhook.req_headers req))
    (Webhook.req_body req) (Webhook.req_method req)
    (Webhook.resolve_source req)
    (Webhook.req_get req "User-Agent").

(** The statuses handed to the status callback by a list of effects
    of the subscriber session, oldest first. *)
Fixpoint status_reports (effects : list WebSocketClient.Effect)
    : list Types.ConnectionStatus :=
  match effects with
  | [] => []
  | WebSocketClient.StatusCallback status :: rest =>
      status :: status_reports rest
  | _ :: rest => status_reports rest
  end.




(** The targets of an optional forwarder. *)
Definition targets (forwarder : option EventForwarder.Forwarder)
    : list string :=
  match forwarder with
  | Some fw => EventForwarder.endpoints fw
  | None => []
  end.

(** A filter field constrains the event only when it is set and not
    empty. *)
Definition admits (wanted : option string) (actual : string) : Prop :=
  match wanted with
  | Some s => s = "" \/ actual = s
  | None => True
  end.

(** The responses among the effects of the gateway, oldest first. *)
Fixpoint responses (effects : list Webhook.Effect)
    : list (Z * Webhook.ResponseBody) :=
  match effects with
  | [] => []
  | Webhook.Respond status payload :: rest =>
      (status, payload) :: responses rest
  | _ :: rest => responses rest
  end.

(** The ids of the events the hub's log reports as broadcast. *)
Fixpoint broadcast_ids (entries : list WebSocketServer.LogEntry)
    : list string :=
  match entries with
  | [] => []
  | WebSocketServer.BroadcastingEvent eventId _ _ _ :: rest =>
      eventId :: broadcast_ids rest
  | _ :: rest => broadcast_ids rest
  end.

(** A request the gateway turns into an event: a POST whose body can be
    serialized. *)
Definition accepted (req : Webhook.Request) : bool :=
  String.eqb (Webhook.req_method req) "POST"
  && bool_decide (is_Some (Webhook.JSON_stringify (Webhook.req_body req))).

(** What the transport guarantees about the events it reports to the
    hub, given the sockets connected so far: a connection is a new
    socket; a disconnection or a ping comes from a connected socket. *)
Fixpoint hub_well_formed (connected : list string)
    (es : list HubRun.HubEvent) : Prop :=
  match es with
  | [] => True
  | HubRun.Connection _ socketId :: rest =>
      (socketId ∉ connected) /\
      hub_well_formed (connected ++ [socketId]) rest
  | HubRun.Disconnection socketId :: rest =>
      socketId ∈ connected /\
      hub_well_formed (filter (fun s => s <> socketId) connected) rest
  | HubRun.Ping _ socketId :: rest =>
      socketId ∈ connected /\ hub_well_formed connected rest
  | _ :: rest => hub_well_formed connected rest
  end.

(** The events handed over for broadcast in a run, oldest first. *)
Fixpoint broadcasts (es : list HubRun.HubEvent) : list Types.WebhookEvent :=
  match es with
  | [] => []
  | HubRun.Broadcast event :: rest => event :: broadcasts rest
  | _ :: rest => broadcasts rest
  end.

(** The webhook events addressed to [socketId] in an outbox. *)
Fixpoint inbox (socketId : string)
    (outbox : list (string * WebSocketServer.Message))
    : list Types.WebhookEvent :=
  match outbox with
  | [] => []
  | (s, WebSocketServer.WebhookMsg event) :: rest =>
      if String.eqb s socketId then event :: inbox socketId rest
      else inbox socketId rest
  | _ :: rest => inbox socketId rest
  end.

(** The events broadcast in a run while [socketId] was connected. *)
Fixpoint heard (socketId : string) (connected : list string)
    (es : list HubRun.HubEvent) : list Types.WebhookEvent :=
  match es with
  | [] => []
  | HubRun.Connection _ s :: rest =>
      heard socketId (connected ++ [s]) rest
  | HubRun.Disconnection s :: rest =>
      heard socketId (filter (fun x => x <> s) connected) rest
  | HubRun.Broadcast event :: rest =>
      (if bool_decide (socketId ∈ connected) then [event] else [])
        ++ heard socketId connected rest
  | _ :: rest => heard socketId connected rest
  end.

(** The events handed to the event callback by a list of effects of
    the subscriber session, oldest first. *)
Fixpoint event_reports (effects : list WebSocketClient.Effect)
    : list Types.WebhookEvent :=
  match effects with
  | [] => []
  | WebSocketClient.EventCallback event :: rest =>
      event :: event_reports rest
  | _ :: rest => event_reports rest
  end.

(** The webhook messages among the events the transport delivers to a
    session, oldest first. *)
Fixpoint webhooks (es : list (Z * WebSocketClient.SocketEvent))
    : list Types.WebhookEvent :=
  match es with
  | [] => []
  | (_, WebSocketClient.OnWebhook event) :: rest => event :: webhooks rest
  | _ :: rest => webhooks rest
  end.

(** The number of connection errors among them. *)
Fixpoint connect_errors (es : list (Z * WebSocketClient.SocketEvent)) : nat :=
  match es with
  | [] => 0
  | (_, WebSocketClient.OnConnectError _) :: rest => S (connect_errors rest)
  | _ :: rest => connect_errors rest
  end.




(** The failure every attempt ends in when the event's timestamp is not
    a [Date]. *)
Definition not_a_date : string :=
  "event.timestamp.toISOString is not a function".

End Spec.

(** ** Sample values used by the examples *)

Module Sample.
Import Types.

(** An event that arrived on [endpoint]. *)
Definition event_on (endpoint : string) : WebhookEvent :=
  {| id := "3f2b8c1e-0d4a-4c57-9a61-5e0f7b2d9c44";
     timestamp := 1700000000000;
     source := "203.0.113.9";
     endpoint := endpoint;
     headers := {[ "content-type" := "application/json" ]};
     body := BodyJson "{}";
     method := "POST";
     ip := "203.0.113.9";
     userAgent := Some "curl/8.4.0" |}.

(** The prefixes of the endpoint-filter demo. *)
Definition demo_prefixes : list string := ["/github"; "/stripe"].

Definition raw_headers : gmap string string :=
  {[ "Authorization" := "Bearer s3cr3t";
     "cookie" := "sid=42";
     "X-API-Key" := "k-123";
     "content-type" := "application/json";
     "x-forwarded-for" := "198.51.100.7" ]}.

Definition clean_headers : gmap string string :=
  {[ "Authorization" := "[REDACTED]";
     "cookie" := "[REDACTED]";
     "X-API-Key" := "[REDACTED]";
     "content-type" := "application/json";
     "x-forwarded-for" := "198.51.100.7" ]}.

(** A forwarder with two targets, A then B. *)
Definition target_a : string := "http://localhost:4000/hook".
Definition target_b : string := "http://localhost:5000/hook".

Definition forwarder_ab : EventForwarder.Forwarder :=
  {| EventForwarder.endpoints := [target_a; target_b];
     EventForwarder.timeout := 5000 |}.

Definition world0 : EventForwarder.World :=
  {| EventForwarder.now := 1700000000250;
     EventForwarder.posts := [];
     EventForwarder.log := [] |}.

(** A network on which target A never answers in time and every
    other target answers 200 after 12 ms. *)
Definition network_a_hangs (url : string) (payload : Types.WebhookEvent)
    (sent : Z) : Z * EventForwarder.Transport :=
  if String.eqb url target_a
  then (60000, EventForwarder.FinalResponse 200)
  else (12, EventForwarder.FinalResponse 200).

(** A network on which every target answers 404 after 8 ms. *)
Definition network_404 (url : string) (payload : Types.WebhookEvent)
    (sent : Z) : Z * EventForwarder.Transport :=
  (8, EventForwarder.FinalResponse 404).

Definition gateway0 : Webhook.World :=
  {| Webhook.now := 1700000000000;
     Webhook.uuid_count := 0;
     Webhook.headersSent := false;
     Webhook.trace := [] |}.

Definition uuids (n : nat) : string := "event-" +:+ pretty n.

(** A callback that returns normally. *)
Definition quiet_callback : option (Types.WebhookEvent -> option string) :=
  Some (fun _ => None).

(** A POST to [/github] through a proxy. *)
Definition post_github : Webhook.Request :=
  {| Webhook.req_headers := raw_headers;
     Webhook.req_ip := Some "10.0.0.1";
     Webhook.req_path := "/github";
     Webhook.req_method := "POST";
     Webhook.req_body := Types.BodyJson "{}" |}.

(** The same call with no parsed body. *)
Definition post_no_body : Webhook.Request :=
  {| Webhook.req_headers := raw_headers;
     Webhook.req_ip := Some "10.0.0.1";
     Webhook.req_path := "/github";
     Webhook.req_method := "POST";
     Webhook.req_body := Types.BodyUndefined |}.

(** A call whose [X-Forwarded-For] header is present but empty. *)
Definition post_empty_forwarded_for : Webhook.Request :=
  {| Webhook.req_headers := {[ "x-forwarded-for" := "" ]};
     Webhook.req_ip := Some "192.0.2.10";
     Webhook.req_path := "/github";
     Webhook.req_method := "POST";
     Webhook.req_body := Types.BodyJson "{}" |}.

(** A hub with two subscribers connected. *)
Definition hub_two : WebSocketServer.Hub :=
  WebSocketServer.on_connection 1700000000100 "socket-b"
    (WebSocketServer.on_connection 1700000000050 "socket-a"
       (WebSocketServer.create 1700000000000)).

(** A session with its status callback registered, in the middle of
    reconnecting after a drop. *)
Definition session_reconnecting : WebSocketClient.Client :=
  {| WebSocketClient.socket := WebSocketClient.Socket false;
     WebSocketClient.config :=
       {| Types.serverUrl := "http://localhost:3000";
          Types.forwardEndpoints := [target_a];
          Types.subscribeEndpoints := Some demo_prefixes;
          Types.reconnectInterval := Some 1000;
          Types.maxRetries := Some 5 |};
     WebSocketClient.status :=
       {| Types.connected := false;
          Types.lastConnected := Some 1700000000000;
          Types.reconnectAttempts := 3;
          Types.error := Some "transport close" |};
     WebSocketClient.reconnectAttempts_field := 2;
     WebSocketClient.eventCallback := true;
     WebSocketClient.statusCallback := true |}.


(** A filter that asks for the bearer token the sender used. *)
Definition filter_on_token : Filters.EventFilter :=
  {| Filters.f_source := None;
     Filters.f_endpoint := Some "/github";
     Filters.f_method := Some "";
     Filters.f_headers := Some {[ "Authorization" := "Bearer s3cr3t" ]} |}.

(** A filter on endpoint and content type. *)
Definition filter_on_json : Filters.EventFilter :=
  {| Filters.f_source := None;
     Filters.f_endpoint := Some "/github";
     Filters.f_method := Some "";
     Filters.f_headers := Some {[ "content-type" := "application/json" ]} |}.

(** A callback that throws. *)
Definition failing_callback : option (Types.WebhookEvent -> option string) :=
  Some (fun _ => Some "socket closed").

(** A GET on the same path. *)
Definition get_github : Webhook.Request :=
  {| Webhook.req_headers := raw_headers;
     Webhook.req_ip := Some "10.0.0.1";
     Webhook.req_path := "/github";
     Webhook.req_method := "GET";
     Webhook.req_body := Types.BodyJson "{}" |}.

Definition server0 : AnchrServer.Server :=
  {| AnchrServer.gateway := gateway0; AnchrServer.hub := hub_two |}.

(** A run of the hub: A connects, an event is broadcast, B connects, A
    pings and leaves, a second event is broadcast. *)
Definition hub_run : list HubRun.HubEvent :=
  [HubRun.Connection 1700000000050 "socket-a";
   HubRun.Broadcast (event_on "/github");
   HubRun.Connection 1700000000100 "socket-b";
   HubRun.Ping 1700000000150 "socket-a";
   HubRun.Disconnection "socket-a";
   HubRun.Tick 1700000001000;
   HubRun.Broadcast (event_on "/stripe")].

(** A session's life: connect, two events, a drop, two failed
    attempts, then a reconnection. *)
Definition session_run : list (Z * WebSocketClient.SocketEvent) :=
  [(1700000000000, WebSocketClient.OnConnect);
   (1700000000100, WebSocketClient.OnWebhook (event_on "/github"));
   (1700000000200, WebSocketClient.OnStats 1 1);
   (1700000000300, WebSocketClient.OnDisconnect "transport close");
   (1700000000400, WebSocketClient.OnWebhook (event_on "/stripe"));
   (1700000001300, WebSocketClient.OnReconnectAttempt 1);
   (1700000001400, WebSocketClient.OnConnectError "xhr poll error");
   (1700000002300, WebSocketClient.OnReconnectAttempt 2);
   (1700000002400, WebSocketClient.OnReconnect 2)].

Definition session_config : Types.ClientConfig :=
  {| Types.serverUrl := "http://localhost:3000";
     Types.forwardEndpoints := [target_a];
     Types.subscribeEndpoints := Some demo_prefixes;
     Types.reconnectInterval := Some 1000;
     Types.maxRetries := Some 0 |}.

(** A new session with both callbacks registered. *)
Definition session0 : WebSocketClient.Client :=
  WebSocketClient.setStatusCallback
    (WebSocketClient.setEventCallback
       (WebSocketClient.create session_config)).

(** The sample event on [endpoint] as built in this process, and as a
    subscriber receives it from the channel. *)
Definition built_on (endpoint : string) : Runtime.Event :=
  Runtime.built (event_on endpoint).

Definition received_on (endpoint : string) : Runtime.Event :=
  Runtime.received (event_on endpoint).

(** A forwarder whose timeout is negative. *)
Definition forwarder_negative : EventForwarder.Forwarder :=
  {| EventForwarder.endpoints := [target_a];
     EventForwarder.timeout := -1 |}.

(** A session that is connected, with its status callback registered. *)
Definition session_connected : WebSocketClient.Client :=
  {| WebSocketClient.socket := WebSocketClient.Socket true;
     WebSocketClient.config := session_config;
     WebSocketClient.status :=
       {| Types.connected := true;
          Types.lastConnected := Some 1700000000000;
          Types.reconnectAttempts := 0;
          Types.error := None |};
     WebSocketClient.reconnectAttempts_field := 0;
     WebSocketClient.eventCallback := true;
     WebSocketClient.statusCallback := true |}.

End Sample.

(** * Properties *)

(** ** Facts about the JavaScript primitives *)

Section JsFacts.

Lemma startsWith_append (p rest : string) :
  Js.startsWith (p +:+ rest) p = true.
Proof.
  unfold Js.startsWith.
  induction p as [|c p IH]; simpl.
  - by destruct rest.
  - destruct (ascii_dec c c); [exact IH | congruence].
Qed.

Lemma startsWith_inv (p s : string) :
  Js.startsWith s p = true -> exists rest, s = p +:+ rest.
Proof.
  unfold Js.startsWith. revert s.
  induction p as [|c p IH]; intros s H.
  - exists s. reflexivity.
  - destruct s as [|d s]; simpl in H; [discriminate|].
    destruct (ascii_dec c d) as [->|]; [|discriminate].
    destruct (IH s H) as [rest ->]. exists rest. reflexivity.
Qed.

Lemma startsWith_spec (p s : string) :
  Js.startsWith s p = true <-> exists rest, s = p +:+ rest.
Proof.
  split; [apply startsWith_inv|].
  intros [rest ->]. apply startsWith_append.
Qed.

Lemma includes_spec (xs : list string) (x : string) :
  Js.includes xs x = true <-> x ∈ xs.
Proof.
  induction xs as [|y ys IH]; simpl.
  - split; [discriminate | intros H; inversion H].
  - rewrite elem_of_cons. destruct (String.eqb_spec x y) as [->|Hne].
    + split; auto.
    + rewrite IH. split; [auto | intros [?|?]; [contradiction | done]].
Qed.

Lemma some_spec {A} (p : A -> bool) (xs : list A) :
  Js.some p xs = true <-> exists x, x ∈ xs /\ p x = true.
Proof.
  induction xs as [|y ys IH]; simpl.
  - split; [discriminate | intros (x & H & _); inversion H].
  - destruct (p y) eqn:Hy.
    + split; [|done]. intros _. exists y. split; [left | done].
    + rewrite IH. split.
      * intros (x & Hx & Hp). exists x. split; [by right | done].
      * intros (x & Hx & Hp). apply elem_of_cons in Hx as [->|Hx].
        -- congruence.
        -- by exists x.
Qed.

End JsFacts.

(** ** The endpoint filter *)

Section EndpointFilter.
Import Types AnchrCLI.

Lemma matches_spec (event : WebhookEvent) (p : string) :
  matches event p = true <->
  endpoint event = p \/ exists rest, endpoint event = p +:+ rest.
Proof.
  unfold matches. rewrite orb_true_iff, String.eqb_eq, startsWith_spec.
  reflexivity.
Qed.


(** C1: with no prefix configured (the list is absent or empty) every
    event is accepted; otherwise an event is accepted exactly when its
    endpoint equals a configured prefix or starts with one, as a
    literal string prefix. For the prefixes ["/github"; "/stripe"],
    [/github] and [/stripe/extra] are accepted, [/other] and
    [/api/users] are rejected. *)
Theorem endpoint_filter_spec :
  (forall event, shouldProcess event None = true) /\
  (forall event, shouldProcess event (Some []) = true) /\
  (forall event p ps,
      shouldProcess event (Some (p :: ps)) = true <->
      exists q, q ∈ p :: ps /\
        (endpoint event = q \/ exists rest, endpoint event = q +:+ rest)) /\
  shouldProcess (Sample.event_on "/github")
    (Some Sample.demo_prefixes) = true /\
  shouldProcess (Sample.event_on "/stripe/extra")
    (Some Sample.demo_prefixes) = true /\
  shouldProcess (Sample.event_on "/other")
    (Some Sample.demo_prefixes) = false /\
  shouldProcess (Sample.event_on "/api/users")
    (Some Sample.demo_prefixes) = false.
Proof.
  repeat split; try reflexivity.
  - intros H. change (Js.some (matches event) (p :: ps) = true) in H.
    apply some_spec in H as (q & Hq & Hm).
    exists q. split; [done | by apply matches_spec].
  - intros (q & Hq & Hm).
    change (Js.some (matches event) (p :: ps) = true).
    apply some_spec. exists q. split; [done | by apply matches_spec].
Qed.

End EndpointFilter.

(** ** Header sanitization *)

Section SanitizeHeaders.
Import Types Utils.
Variable toLowerCase : string -> string.

Lemma sanitize_entry_lookup key value sanitized k :
  sanitize_entry toLowerCase key value sanitized !! k =
  if decide (key = k) then Some (Spec.redacted_value toLowerCase key value)
  else sanitized !! k.
Proof.
  unfold sanitize_entry, Spec.redacted_value, sensitiveHeaders.
  destruct (Js.includes _ (toLowerCase key)) eqn:Hinc.
  - apply includes_spec in Hinc. rewrite bool_decide_eq_true_2 by done.
    apply lookup_insert.
  - rewrite bool_decide_eq_false_2.
    + apply lookup_insert.
    + intros Hin. apply includes_spec in Hin. congruence.
Qed.

Lemma sanitizeHeaders_lookup (headers : gmap string string) (k : string) :
  sanitizeHeaders toLowerCase headers !! k =
  Spec.redacted_value toLowerCase k <$> headers !! k.
Proof.
  unfold sanitizeHeaders. revert k.
  apply (map_fold_weak_ind
           (fun (r m : gmap string string) =>
              forall k, r !! k = Spec.redacted_value toLowerCase k <$> m !! k)).
  - intros k. by rewrite !lookup_empty.
  - intros i x m r Hfresh IH k.
    rewrite sanitize_entry_lookup, lookup_insert.
    destruct (decide (i = k)) as [->|Hne]; [done | apply IH].
Qed.

(** C2: in the sanitized map, a header whose lowercased name is one of
    authorization, cookie, x-api-key, x-auth-token holds the marker
    ["[REDACTED]"]; every other header holds its original value; no
    header is added or dropped. *)
Theorem sanitizeHeaders_spec (headers : gmap string string) (key : string) :
  sanitizeHeaders toLowerCase headers !! key =
  match headers !! key with
  | Some value =>
      if bool_decide (toLowerCase key ∈
           ["authorization"; "cookie"; "x-api-key"; "x-auth-token"])
      then Some "[REDACTED]"
      else Some value
  | None => None
  end.
Proof.
  rewrite sanitizeHeaders_lookup. unfold Spec.redacted_value.
  destruct (headers !! key); simpl; [|done].
  by case_bool_decide.
Qed.

End SanitizeHeaders.

Example sanitizeHeaders_sample :
  Utils.sanitizeHeaders Js.toLowerCase Sample.raw_headers
  = Sample.clean_headers.
Proof. vm_compute. reflexivity. Qed.

(** ** The target list of the forwarding engine *)

Section Endpoints.
Import EventForwarder.

Lemma addEndpoint_present (endpoint : string) (fw : Forwarder) :
  endpoint ∈ endpoints fw -> addEndpoint endpoint fw = fw.
Proof.
  intros Hin. unfold addEndpoint.
  apply includes_spec in Hin. by rewrite Hin.
Qed.

Lemma addEndpoint_absent (endpoint : string) (fw : Forwarder) :
  endpoint ∉ endpoints fw ->
  addEndpoint endpoint fw =
  {| endpoints := endpoints fw ++ [endpoint]; timeout := timeout fw |}.
Proof.
  intros Hnin. unfold addEndpoint.
  destruct (Js.includes (endpoints fw) endpoint) eqn:Hinc; [|done].
  apply includes_spec in Hinc. contradiction.
Qed.

Lemma addEndpoint_elem (endpoint : string) (fw : Forwarder) :
  endpoint ∈ endpoints (addEndpoint endpoint fw).
Proof.
  destruct (decide (endpoint ∈ endpoints fw)) as [Hin|Hnin].
  - by rewrite addEndpoint_present.
  - rewrite addEndpoint_absent by done. simpl.
    apply elem_of_app. right. by left.
Qed.

(** C9: adding a target that is already in the list leaves the
    forwarder (its target list and its timeout) unchanged; adding a
    target that is not in the list appends it at the end. Hence adding
    the same target twice is the same as adding it once. *)
Theorem addEndpoint_spec (endpoint : string) (fw : Forwarder) :
  (endpoint ∈ endpoints fw -> addEndpoint endpoint fw = fw) /\
  (endpoint ∉ endpoints fw ->
     endpoints (addEndpoint endpoint fw) = endpoints fw ++ [endpoint] /\
     timeout (addEndpoint endpoint fw) = timeout fw) /\
  addEndpoint endpoint (addEndpoint endpoint fw) = addEndpoint endpoint fw.
Proof.
  split; [apply addEndpoint_present|]. split.
  - intros Hnin. by rewrite addEndpoint_absent.
  - apply addEndpoint_present, addEndpoint_elem.
Qed.

(** C9 at a concrete forwarder: a duplicate and a new target. *)
Lemma addEndpoint_spec_witness :
  addEndpoint "http://localhost:4000/hook" Sample.forwarder_ab
    = Sample.forwarder_ab /\
  endpoints (addEndpoint "http://localhost:6000/c" Sample.forwarder_ab)
    = ["http://localhost:4000/hook"; "http://localhost:5000/hook";
       "http://localhost:6000/c"].
Proof.
  split.
  - apply (proj1 (addEndpoint_spec "http://localhost:4000/hook"
                    Sample.forwarder_ab)).
    vm_compute. left.
  - apply (proj1 (proj2 (addEndpoint_spec "http://localhost:6000/c"
                           Sample.forwarder_ab))).
    vm_compute. intros H.
    repeat (apply elem_of_cons in H as [H|H]; [discriminate|]).
    inversion H.
Defined.

End Endpoints.

(** ** Forwarding an event to the configured targets *)

Section Forwarding.
Import Types EventForwarder.
Variable network : string -> WebhookEvent -> Z -> Z * Transport.





End Forwarding.


(** Targets [A; B] where A times out and B answers 200, for an event
    with a [Date]: two results, A failed with the timeout message, B
    successful with its status code. *)
Example forwardEvent_timeout_then_success :
  fst <$> EventForwarder.forwardEvent Sample.network_a_hangs
            Sample.forwarder_ab (Sample.built_on "/github") Sample.world0
  = Some
      [ {| Types.success := false;
           Types.fr_endpoint := Sample.target_a;
           Types.statusCode := None;
           Types.fr_error := Some "timeout of 5000ms exceeded";
           Types.responseTime := Some 5000 |};
        {| Types.success := true;
           Types.fr_endpoint := Sample.target_b;
           Types.statusCode := Some 200;
           Types.fr_error := None;
           Types.responseTime := Some 12 |} ].
Proof. vm_compute. reflexivity. Qed.

(** The same targets for the event as a subscriber receives it: both
    attempts fail before any request is made. *)
Example forwardEvent_received_event :
  fst <$> EventForwarder.forwardEvent Sample.network_a_hangs
            Sample.forwarder_ab (Sample.received_on "/github") Sample.world0
  = Some
      [ {| Types.success := false;
           Types.fr_endpoint := Sample.target_a;
           Types.statusCode := None;
           Types.fr_error := Some Spec.not_a_date;
           Types.responseTime := Some 0 |};
        {| Types.success := false;
           Types.fr_endpoint := Sample.target_b;
           Types.statusCode := None;
           Types.fr_error := Some Spec.not_a_date;
           Types.responseTime := Some 0 |} ].
Proof. vm_compute. reflexivity. Qed.

(** With a negative timeout and an event with a [Date], the first
    attempt never returns, and neither does [forwardEvent]. *)
Example forwardEvent_negative_timeout :
  EventForwarder.forwardEvent Sample.network_a_hangs
    Sample.forwarder_negative (Sample.built_on "/github") Sample.world0
  = None.
Proof. reflexivity. Qed.

(** ** The outcome of one forward attempt *)

Section ForwardOutcome.
Import Types EventForwarder.
Variable network : string -> WebhookEvent -> Z -> Z * Transport.

(** C4 (amended): for an attempt with a timeout that is not negative,
    whose request is made and whose exchange completes before the
    timeout, the result follows the final response, the one the HTTP
    client gets once it has followed redirects. A final response with a
    2xx status gives a successful result that carries the status code.
    A final response with any other status is rejected by the HTTP
    client and recorded as a failure, with the client's error message
    and no status code. A failure of the transport is recorded as a
    failure with the transport's message. *)
Theorem forwardToEndpoint_outcome fw event endpoint startTime w
    latency outcome :
  0 <= timeout fw ->
  Runtime.timestamp_value event = Runtime.DateObject ->
  network endpoint (Runtime.fields event) (now w) = (latency, outcome) ->
  ~ (0 < timeout fw <= latency) ->
  exists r w',
    forwardToEndpoint network fw event endpoint startTime w = Some (r, w') /\
    fr_endpoint r = endpoint /\
    is_Some (responseTime r) /\
    match outcome with
    | FinalResponse status =>
        if decide (200 <= status < 300)
        then success r = true /\
             statusCode r = Some status /\
             fr_error r = None
        else success r = false /\
             statusCode r = None /\
             fr_error r = Some ("Request failed with status code "
                                  +:+ pretty status)
    | Failed message =>
        success r = false /\
        statusCode r = None /\
        fr_error r = Some message
    end.
Proof.
  intros Hto Hdate Hnet Hbefore.
  assert (Hin_time : (0 <? timeout fw) && (timeout fw <=? latency) = false).
  { destruct (0 <? timeout fw) eqn:Hpos; [|reflexivity].
    destruct (timeout fw <=? latency) eqn:Hle; [|reflexivity].
    apply Z.ltb_lt in Hpos. apply Z.leb_le in Hle. lia. }
  unfold forwardToEndpoint, Runtime.toISOString, axios_post.
  rewrite Hdate. simpl.
  replace (timeout fw <? 0) with false by (symmetry; apply Z.ltb_ge; lia).
  rewrite Hnet, Hin_time.
  destruct outcome as [status|message]; simpl.
  - unfold validateStatus.
    destruct (decide (200 <= status < 300)) as [Hok|Hko].
    + replace (200 <=? status) with true by (symmetry; apply Z.leb_le; lia).
      replace (status <? 300) with true by (symmetry; apply Z.ltb_lt; lia).
      simpl. eexists _, _. split; [reflexivity|]. simpl. eauto 10.
    + assert (Hv : (200 <=? status) && (status <? 300) = false).
      { destruct (200 <=? status) eqn:Hlo; [|reflexivity].
        destruct (status <? 300) eqn:Hhi; [|reflexivity].
        apply Z.leb_le in Hlo. apply Z.ltb_lt in Hhi. lia. }
      rewrite Hv. simpl. eexists _, _. split; [reflexivity|]. simpl.
      eauto 10.
  - eexists _, _. split; [reflexivity|]. simpl. eauto 10.
Qed.

End ForwardOutcome.

(** The amended C4 at a target whose final response is a 404, after
    8 ms. *)
Lemma forwardToEndpoint_outcome_witness :
  exists r w',
    EventForwarder.forwardToEndpoint Sample.network_404 Sample.forwarder_ab
      (Sample.built_on "/github") Sample.target_a 1700000000250
      Sample.world0 = Some (r, w') /\
    Types.fr_endpoint r = Sample.target_a /\
    is_Some (Types.responseTime r) /\
    Types.success r = false /\
    Types.statusCode r = None /\
    Types.fr_error r = Some "Request failed with status code 404".
Proof.
  apply (forwardToEndpoint_outcome Sample.network_404 Sample.forwarder_ab
           (Sample.built_on "/github") Sample.target_a 1700000000250
           Sample.world0 8 (EventForwarder.FinalResponse 404)).
  - vm_compute. discriminate.
  - reflexivity.
  - reflexivity.
  - vm_compute. intros [_ H]. apply H. reflexivity.
Defined.

(** C4 as stated fails: the request is made, the target answers 404
    well before the timeout, and the result carries no status code; the
    404 only appears inside the error message of a failed result. *)
Lemma non_2xx_status_not_reported :
  Sample.network_404 Sample.target_a
    (Runtime.fields (Sample.built_on "/github"))
    (EventForwarder.now Sample.world0)
    = (8, EventForwarder.FinalResponse 404) /\
  (exists r w',
      EventForwarder.forwardToEndpoint Sample.network_404
        Sample.forwarder_ab (Sample.built_on "/github")
        Sample.target_a 1700000000250 Sample.world0 = Some (r, w') /\
      Types.statusCode r = None /\
      Types.statusCode r <> Some 404 /\
      Types.success r = false /\
      Types.fr_error r = Some "Request failed with status code 404") /\
  ~ (forall network fw event endpoint startTime w latency status r w',
       0 <= EventForwarder.timeout fw ->
       Runtime.timestamp_value event = Runtime.DateObject ->
       network endpoint (Runtime.fields event) (EventForwarder.now w)
         = (latency, EventForwarder.FinalResponse status) ->
       latency < EventForwarder.timeout fw ->
       ~ (200 <= status < 300) ->
       EventForwarder.forwardToEndpoint network fw event endpoint
         startTime w = Some (r, w') ->
       Types.statusCode r = Some status).
Proof.
  split; [reflexivity|]. split.
  - eexists _, _. split; [vm_compute; reflexivity|].
    simpl. repeat split; congruence.
  - intros H.
    assert (Hrun : exists r w',
      EventForwarder.forwardToEndpoint Sample.network_404
        Sample.forwarder_ab (Sample.built_on "/github")
        Sample.target_a 1700000000250 Sample.world0 = Some (r, w') /\
      Types.statusCode r = None).
    { eexists _, _. split; [vm_compute; reflexivity | reflexivity]. }
    destruct Hrun as (r & w' & Hrun & Hnone).
    assert (Hsome : Types.statusCode r = Some 404).
    { apply (H Sample.network_404 Sample.forwarder_ab
               (Sample.built_on "/github") Sample.target_a 1700000000250
               Sample.world0 8 404 r w'); try reflexivity; try exact Hrun.
      - vm_compute. discriminate.
      - lia. }
    congruence.
Qed.

(** ** The ingestion gateway *)

Section Gateway.
Import Types Utils Webhook.
Variable uuidv4 : nat -> string.
Variable eventCallback : option (WebhookEvent -> option string).

Lemma build_event_run req w :
  build_event uuidv4 req w =
  (inr (Spec.event_of uuidv4 req w),
   {| now := now w; uuid_count := S (uuid_count w);
      headersSent := headersSent w; trace := trace w |}).
Proof. reflexivity. Qed.

Lemma resolve_source_origin req : resolve_source req = Spec.origin req.
Proof.
  unfold resolve_source, Spec.origin, req_get, Js.or, Js.or_else, Js.truthy.
  change (Js.toLowerCase "X-Forwarded-For") with "x-forwarded-for".
  destruct (req_headers req !! "x-forwarded-for") as [forwarded|].
  - destruct (String.eqb_spec forwarded "") as [->|Hne]; simpl.
    + destruct (req_ip req) as [peer|]; [|done].
      destruct (String.eqb_spec peer ""); by case_decide.
    + case_decide; [done|].
      by destruct (String.eqb_spec forwarded "").
  - simpl. destruct (req_ip req) as [peer|]; [|done].
    destruct (String.eqb_spec peer ""); by case_decide.
Qed.

Lemma performed_app {A} (m : M A) w effects :
  trace (m w).2 = trace w ++ effects -> Spec.performed m w = effects.
Proof. intros H. unfold Spec.performed. rewrite H. apply drop_app_length. Qed.

(** The complete behaviour of [handleWebhook], by cases on the body,
    on the state of the response and on the callback. *)
Lemma handleWebhook_run req w :
  let event := Spec.event_of uuidv4 req w in
  let received text :=
    LogReceived (id event) (req_path req) (req_method req)
      (resolve_source req) (Z.of_nat (String.length text)) in
  let ack := Respond 200 (AckBody (id event) (timestamp event)) in
  let sent := "Cannot set headers after they are sent to the client" in
  let type_error := "Cannot read properties of undefined (reading 'length')" in
  let failure := Respond 500 (ErrorBody "Internal server error") in
  ((handleWebhook uuidv4 eventCallback req w).1,
   Spec.performed (handleWebhook uuidv4 eventCallback req) w) =
  match JSON_stringify (req_body req), headersSent w with
  | None, false => (inr tt, [LogError type_error; failure])
  | None, true => (inl sent, [LogError type_error])
  | Some text, true => (inl sent, [received text; LogError sent])
  | Some text, false =>
      match eventCallback with
      | None => (inr tt, [received text; ack])
      | Some callback =>
          match callback event with
          | None => (inr tt, [received text; ack; Notify event])
          | Some message =>
              (inl sent, [received text; ack; Notify event; LogError message])
          end
      end
  end.
Proof.
  intros event received ack sent type_error failure.
  subst event received ack sent type_error failure.
  unfold Spec.performed.
  unfold handleWebhook, handleWebhook_try, handleWebhook_catch, try_catch,
    bind. rewrite build_event_run. unfold Spec.event_of.
  unfold bodySize, res_status_json, emit, invoke_callback, bind, throw, ret.
  destruct w as [clock count sent effects]. simpl.
  destruct (req_body req) as [|text]; destruct sent; simpl;
    try (destruct eventCallback as [callback|]; simpl;
         try match goal with
             | |- context [callback ?e] => destruct (callback e)
             end; simpl);
    f_equal; rewrite <- ?app_assoc, drop_app_length; reflexivity.
Qed.

Lemma handleWebhook_performed req w :
  Spec.performed (handleWebhook uuidv4 eventCallback req) w =
  (let event := Spec.event_of uuidv4 req w in
   let received text :=
     LogReceived (id event) (req_path req) (req_method req)
       (resolve_source req) (Z.of_nat (String.length text)) in
   let ack := Respond 200 (AckBody (id event) (timestamp event)) in
   let sent := "Cannot set headers after they are sent to the client" in
   let type_error :=
     "Cannot read properties of undefined (reading 'length')" in
   let failure := Respond 500 (ErrorBody "Internal server error") in
   match JSON_stringify (req_body req), headersSent w with
   | None, false => [LogError type_error; failure]
   | None, true => [LogError type_error]
   | Some text, true => [received text; LogError sent]
   | Some text, false =>
       match eventCallback with
       | None => [received text; ack]
       | Some callback =>
           match callback event with
           | None => [received text; ack; Notify event]
           | Some message =>
               [received text; ack; Notify event; LogError message]
           end
       end
   end).
Proof.
  pose proof (f_equal snd (handleWebhook_run req w)) as H.
  cbv zeta in H. simpl in H. rewrite H. clear H. cbv zeta.
  destruct (JSON_stringify (req_body req)), (headersSent w);
    try reflexivity.
  destruct eventCallback as [callback|]; [|reflexivity].
  destruct (callback _); reflexivity.
Qed.

(** Splitting a short concrete trace around a [Notify]. *)
Ltac split_trace H pre :=
  repeat (destruct pre as [|? pre]; simpl in H;
          [try discriminate H | injection H as ? H; subst]);
  try (destruct pre; discriminate H).

(** Anything handed to the callback is the event built for the call,
    and the acknowledgment of that event precedes it. *)
Lemma notify_after_ack req w pre event post :
  Spec.performed (handleWebhook uuidv4 eventCallback req) w
    = pre ++ Notify event :: post ->
  event = Spec.event_of uuidv4 req w /\
  Respond 200 (AckBody (id event) (timestamp event)) ∈ pre /\
  (forall event', Notify event' ∉ pre).
Proof.
  rewrite handleWebhook_performed. intros H.
  destruct (JSON_stringify (req_body req)) as [text|],
    (headersSent w); simpl in H.
  - split_trace H pre.
  - destruct eventCallback as [callback|].
    + destruct (callback _) as [message|];
        split_trace H pre; inversion H; subst; clear H;
        (split; [reflexivity|]; split; [right; left|]);
        intros e He;
        repeat (apply elem_of_cons in He as [He|He]; [discriminate|]);
        inversion He.
    + split_trace H pre.
  - split_trace H pre.
  - split_trace H pre.
Qed.

(** C5: whenever the callback is invoked, it is invoked with the event
    built for this call, the 200 acknowledgment carrying that event's
    id and timestamp has been sent before it, and it has not been
    invoked earlier in the call. For a call that is processed
    successfully (the body can be serialized and no response has been
    sent yet) with a callback registered, the effects are, in this
    order: the log line, the acknowledgment, the callback. *)
Theorem ack_precedes_callback req w :
  (forall pre event post,
      Spec.performed (handleWebhook uuidv4 eventCallback req) w
        = pre ++ Notify event :: post ->
      event = Spec.event_of uuidv4 req w /\
      Respond 200 (AckBody (id event) (timestamp event)) ∈ pre /\
      (forall event', Notify event' ∉ pre)) /\
  (forall callback text,
      eventCallback = Some callback ->
      headersSent w = false ->
      JSON_stringify (req_body req) = Some text ->
      exists received rest,
        Spec.performed (handleWebhook uuidv4 eventCallback req) w
          = [received;
             Respond 200 (AckBody (id (Spec.event_of uuidv4 req w))
                            (timestamp (Spec.event_of uuidv4 req w)));
             Notify (Spec.event_of uuidv4 req w)] ++ rest /\
        (forall e, e ∈ rest -> exists message, e = LogError message)).
Proof.
  split; [apply notify_after_ack|].
  rewrite handleWebhook_performed.
  intros callback text -> -> ->. simpl.
  destruct (callback _) as [message|].
  - eexists _, [LogError message]. split; [reflexivity|].
    intros e He. apply list_elem_of_singleton in He. by exists message.
  - eexists _, []. split; [reflexivity|]. intros e He. inversion He.
Qed.

(** The event handed to the callback carries the sanitized headers of
    the request. *)
Lemma notified_headers_sanitized req w event key :
  Notify event ∈ Spec.performed (handleWebhook uuidv4 eventCallback req) w ->
  headers event !! key
  = Spec.redacted_value Js.toLowerCase key <$> req_headers req !! key.
Proof.
  intros He. apply list_elem_of_split in He as (pre & post & He).
  destruct (notify_after_ack req w pre event post He) as (-> & _).
  apply sanitizeHeaders_lookup.
Qed.

(** The [try] block can only throw before the response is sent when
    the body cannot be serialized. *)
Lemma handleWebhook_try_throws req w message :
  (handleWebhook_try uuidv4 eventCallback req w).1 = inl message ->
  headersSent (handleWebhook_try uuidv4 eventCallback req w).2 = false ->
  JSON_stringify (req_body req) = None /\
  headersSent w = false /\
  message = "Cannot read properties of undefined (reading 'length')".
Proof.
  unfold handleWebhook_try, bind. rewrite build_event_run.
  unfold bodySize, res_status_json, emit, invoke_callback, bind, throw, ret.
  destruct w as [clock count sent effects]. simpl.
  destruct (req_body req) as [|text]; simpl.
  - intros [= <-] ->. done.
  - destruct sent; simpl; [intros _ [=]|].
    destruct eventCallback as [callback|]; simpl; [|intros [=]].
    destruct (callback _); simpl; intros _ [=].
Qed.

(** C6: when the construction of the event fails (the [try] block
    throws before any response has been sent), the handler answers 500
    with the generic error body, does not invoke the callback, and
    makes no second attempt: the only effects are the error log line
    and the 500 response, and a single event id has been drawn. *)
Theorem construction_failure_answers_500 req w message :
  (handleWebhook_try uuidv4 eventCallback req w).1 = inl message ->
  headersSent (handleWebhook_try uuidv4 eventCallback req w).2 = false ->
  (handleWebhook uuidv4 eventCallback req w).1 = inr tt /\
  Spec.performed (handleWebhook uuidv4 eventCallback req) w
    = [LogError message; Respond 500 (ErrorBody "Internal server error")] /\
  (forall event,
      Notify event ∉
        Spec.performed (handleWebhook uuidv4 eventCallback req) w) /\
  uuid_count (handleWebhook uuidv4 eventCallback req w).2
    = S (uuid_count w).
Proof.
  intros Hthrow Hunsent.
  destruct (handleWebhook_try_throws req w message Hthrow Hunsent)
    as (Hbody & Hsent & ->).
  pose proof (handleWebhook_run req w) as Hrun. cbv zeta in Hrun.
  rewrite Hbody, Hsent in Hrun. injection Hrun as Hres Hperf.
  rewrite Hres, Hperf. repeat split.
  - intros event He.
    repeat (apply elem_of_cons in He as [He|He]; [discriminate|]).
    inversion He.
  - unfold handleWebhook, try_catch. 
    destruct (handleWebhook_try uuidv4 eventCallback req w)
      as [[e|[]] w1] eqn:Htry; simpl in Hthrow; [|discriminate].
    revert Htry. unfold handleWebhook_try, bind.
    rewrite build_event_run. unfold bodySize.
    rewrite Hbody. unfold throw. intros [= <- <-].
    unfold handleWebhook_catch, bind, emit, res_status_json. simpl.
    rewrite Hsent. reflexivity.
Qed.

(** C10 (amended): the event built for a call has its [ip] equal to
    its [source]; both are the [X-Forwarded-For] value when that header
    is present and not empty, otherwise the peer address when it is
    known and not empty, otherwise ["unknown"]. The event handed to
    the callback is that event. *)
Theorem event_ip_is_source req w :
  (exists event,
      (build_event uuidv4 req w).1 = inr event /\
      ip event = source event /\
      source event = Spec.origin req) /\
  (forall event,
      Notify event ∈
        Spec.performed (handleWebhook uuidv4 eventCallback req) w ->
      ip event = source event /\ source event = Spec.origin req).
Proof.
  split.
  - exists (Spec.event_of uuidv4 req w). rewrite build_event_run.
    split; [reflexivity|]. split; [reflexivity|].
    apply resolve_source_origin.
  - intros event He. apply list_elem_of_split in He as (pre & post & He).
    destruct (notify_after_ack req w pre event post He) as (-> & _).
    split; [reflexivity | apply resolve_source_origin].
Qed.

End Gateway.

(** C5 on a sample call: the acknowledgment, then the callback. *)
Lemma ack_precedes_callback_witness :
  exists received rest,
    Spec.performed
      (Webhook.handleWebhook Sample.uuids Sample.quiet_callback
         Sample.post_github) Sample.gateway0
    = [received;
       Webhook.Respond 200 (Webhook.AckBody "event-0" 1700000000000);
       Webhook.Notify
         (Spec.event_of Sample.uuids Sample.post_github Sample.gateway0)]
      ++ rest /\
    (forall e, e ∈ rest -> exists message, e = Webhook.LogError message).
Proof.
  exact (proj2 (ack_precedes_callback Sample.uuids Sample.quiet_callback
                  Sample.post_github Sample.gateway0)
           (fun _ => None) "{}" eq_refl eq_refl eq_refl).
Defined.

(** C6 on a call whose body is [undefined]. *)
Lemma construction_failure_answers_500_witness :
  Spec.performed
    (Webhook.handleWebhook Sample.uuids Sample.quiet_callback
       Sample.post_no_body) Sample.gateway0
  = [Webhook.LogError
       "Cannot read properties of undefined (reading 'length')";
     Webhook.Respond 500 (Webhook.ErrorBody "Internal server error")].
Proof.
  exact (proj1 (proj2
    (construction_failure_answers_500 Sample.uuids Sample.quiet_callback
       Sample.post_no_body Sample.gateway0
       "Cannot read properties of undefined (reading 'length')"
       eq_refl eq_refl))).
Defined.

(** C10 on a call that came through a proxy. *)
Lemma event_ip_is_source_witness :
  exists event,
    (Webhook.build_event Sample.uuids Sample.post_github Sample.gateway0).1
      = inr event /\
    Types.ip event = Types.source event /\
    Types.source event = Spec.origin Sample.post_github.
Proof.
  exact (proj1 (event_ip_is_source Sample.uuids Sample.quiet_callback
                  Sample.post_github Sample.gateway0)).
Defined.

(** C10 as stated fails: the forwarded-for header exists (with an empty
    value) and yet the peer address is what [ip] and [source] hold. *)
Lemma peer_address_used_despite_forwarded_for :
  Webhook.req_get Sample.post_empty_forwarded_for "X-Forwarded-For"
    = Some "" /\
  Webhook.req_ip Sample.post_empty_forwarded_for = Some "192.0.2.10" /\
  exists event,
    (Webhook.build_event Sample.uuids Sample.post_empty_forwarded_for
       Sample.gateway0).1 = inr event /\
    Types.ip event = "192.0.2.10" /\
    Types.source event = "192.0.2.10" /\
    Some (Types.ip event)
      <> Webhook.req_get Sample.post_empty_forwarded_for "X-Forwarded-For".
Proof.
  split; [vm_compute; reflexivity|]. split; [reflexivity|].
  eexists. split; [reflexivity|].
  split; [vm_compute; reflexivity|]. split; [vm_compute; reflexivity|].
  vm_compute. discriminate.
Qed.

(** ** The broadcast hub *)

Section Hub.
Import Types WebSocketServer.

(** C7: [broadcastEvent] adds exactly one to the total-event counter,
    records the event's timestamp as the last event, leaves the
    connection count and the set of connections alone, and hands the
    transport one [webhook] message for each connected subscriber, in
    connection order, and nothing else. With no subscriber connected
    nothing is emitted and the counter still grows by one. *)
Theorem broadcastEvent_spec (event : WebhookEvent) (h : Hub) :
  totalEvents (stats (broadcastEvent event h))
    = totalEvents (stats h) + 1 /\
  lastEvent (stats (broadcastEvent event h)) = Some (timestamp event) /\
  activeConnections (stats (broadcastEvent event h))
    = activeConnections (stats h) /\
  sockets (broadcastEvent event h) = sockets h /\
  outbox (broadcastEvent event h)
    = outbox h ++ map (fun socketId => (socketId, WebhookMsg event))
                      (sockets h) /\
  (forall socketId,
      (socketId, WebhookMsg event) ∈
        drop (length (outbox h)) (outbox (broadcastEvent event h))
      <-> socketId ∈ sockets h) /\
  (sockets h = [] ->
     outbox (broadcastEvent event h) = outbox h /\
     totalEvents (stats (broadcastEvent event h))
       = totalEvents (stats h) + 1).
Proof.
  repeat split; try reflexivity.
  - simpl. rewrite drop_app_length. intros H.
    apply list_elem_of_fmap in H as (s & [= ->] & Hs). exact Hs.
  - simpl. rewrite drop_app_length. intros H.
    apply list_elem_of_fmap. by exists socketId.
  - simpl. rewrite H. simpl. apply app_nil_r.
Qed.

(** Connections and disconnections keep the transport's set of
    sockets and deliver the stats push to the new socket only. *)
Lemma on_connection_sockets now socketId h :
  sockets (on_connection now socketId h) = sockets h ++ [socketId] /\
  outbox (on_connection now socketId h)
    = outbox h ++ [(socketId, StatsMsg (getStats now
                              (on_connection now socketId h)))].
Proof. split; reflexivity. Qed.

End Hub.

(** C7 on a hub nobody is connected to: nothing is emitted, the counter
    goes from 0 to 1. *)
Lemma broadcastEvent_spec_witness :
  WebSocketServer.outbox
    (WebSocketServer.broadcastEvent (Sample.event_on "/github")
       (WebSocketServer.create 1700000000000)) = [] /\
  Types.totalEvents
    (WebSocketServer.stats
       (WebSocketServer.broadcastEvent (Sample.event_on "/github")
          (WebSocketServer.create 1700000000000))) = 0 + 1.
Proof.
  exact (proj2 (proj2 (proj2 (proj2 (proj2 (proj2
    (broadcastEvent_spec (Sample.event_on "/github")
       (WebSocketServer.create 1700000000000)))))))
    eq_refl).
Defined.

Example broadcast_to_two_subscribers :
  drop 2 (WebSocketServer.outbox
            (WebSocketServer.broadcastEvent (Sample.event_on "/github")
               Sample.hub_two))
  = [("socket-a", WebSocketServer.WebhookMsg (Sample.event_on "/github"));
     ("socket-b", WebSocketServer.WebhookMsg (Sample.event_on "/github"))].
Proof. reflexivity. Qed.

(** ** The subscriber session *)

Section Session.
Import Types WebSocketClient.

(** C8: on every successful connection, the first one as well as a
    reconnection after a drop, the session sets [connected], records
    [lastConnected], resets the reconnect attempt counter to zero,
    clears the last error, and hands the new status to the status
    callback (once, when one is registered). The transport reports both
    kinds of connection to the session in the same way, by the
    ['connect'] event of the Socket. *)
Theorem connection_resets_session (now : Z) (after_a_drop : bool)
    (c : Client) :
  status (occur now (Established after_a_drop) c).1
    = {| connected := true; lastConnected := Some now;
         reconnectAttempts := 0; error := None |} /\
  Spec.status_reports (occur now (Established after_a_drop) c).2
    = (if statusCallback c
       then [ {| connected := true; lastConnected := Some now;
                 reconnectAttempts := 0; error := None |} ]
       else []).
Proof.
  split; [reflexivity|].
  unfold occur. simpl. unfold updateStatus. simpl.
  by destruct (statusCallback c).
Qed.

(** The handler registered for ['reconnect'] would report the attempt
    number, and the CLI would announce a reconnection on such a report;
    a first connection is not announced. *)
Lemma reconnect_is_announced now attemptNumber c isRunning :
  0 < attemptNumber ->
  AnchrCLI.handleStatusChange isRunning
    (status (handle now (OnReconnect attemptNumber) c).1)
  = [AnchrCLI.ReconnectedLine].
Proof.
  intros Hpos. unfold AnchrCLI.handleStatusChange. simpl.
  by replace (0 <? attemptNumber) with true
    by (symmetry; apply Z.ltb_lt; lia).
Qed.

Lemma connect_is_silent now c isRunning :
  AnchrCLI.handleStatusChange isRunning (status (handle now OnConnect c).1)
  = [].
Proof. reflexivity. Qed.

End Session.

(** A session that reconnects at its third attempt: the counter, which
    stood at 3, is back to zero, and the callback is told so. *)
Example reconnection_resets_counter :
  Spec.status_reports
    (WebSocketClient.occur 1700000005000 (WebSocketClient.Established true)
       Sample.session_reconnecting).2
  = [ {| Types.connected := true;
         Types.lastConnected := Some 1700000005000;
         Types.reconnectAttempts := 0;
         Types.error := None |} ].
Proof. reflexivity. Qed.

(** ** More on the target list *)

Section EndpointList.
Import EventForwarder.

Lemma remove_first_absent (endpoint : string) (l : list string) :
  endpoint ∉ l -> remove_first endpoint l = l.
Proof.
  induction l as [|x l IH]; simpl; [done|].
  intros Hnin. apply not_elem_of_cons in Hnin as [Hne Hnin].
  destruct (String.eqb_spec x endpoint) as [->|_]; [done|].
  by rewrite IH.
Qed.

Lemma remove_first_split (endpoint : string) (l : list string) :
  endpoint ∈ l ->
  exists before after,
    l = before ++ endpoint :: after /\
    (endpoint ∉ before) /\
    remove_first endpoint l = before ++ after.
Proof.
  induction l as [|x l IH]; simpl; [intros H; inversion H|].
  intros Hin. destruct (String.eqb_spec x endpoint) as [->|Hne].
  - exists [], l. repeat split. apply not_elem_of_nil.
  - apply elem_of_cons in Hin as [->|Hin]; [done|].
    destruct (IH Hin) as (before & after & -> & Hb & ->).
    exists (x :: before), after. repeat split.
    apply not_elem_of_cons. split; [congruence | done].
Qed.

(** X1: [removeEndpoint] removes the first occurrence of the target and
    nothing else: a target that is not in the list leaves the forwarder
    unchanged; otherwise the list splits around the first occurrence,
    which is dropped, and the timeout is kept. *)
Theorem removeEndpoint_first_occurrence (endpoint : string) (fw : Forwarder) :
  (endpoint ∉ endpoints fw -> removeEndpoint endpoint fw = fw) /\
  (endpoint ∈ endpoints fw ->
     exists before after,
       endpoints fw = before ++ endpoint :: after /\
       (endpoint ∉ before) /\
       endpoints (removeEndpoint endpoint fw) = before ++ after /\
       timeout (removeEndpoint endpoint fw) = timeout fw).
Proof.
  split.
  - intros Hnin. unfold removeEndpoint. rewrite remove_first_absent by done.
    by destruct fw.
  - intros Hin. destruct (remove_first_split endpoint (endpoints fw) Hin)
      as (before & after & Hl & Hb & Hr).
    exists before, after. by repeat split.
Qed.

(** X2: removing a target right after adding it gives back the
    forwarder one started from, provided the target was not configured
    before. *)
Theorem removeEndpoint_addEndpoint (endpoint : string) (fw : Forwarder) :
  endpoint ∉ endpoints fw ->
  removeEndpoint endpoint (addEndpoint endpoint fw) = fw.
Proof.
  intros Hnin. rewrite addEndpoint_absent by done.
  unfold removeEndpoint. simpl.
  assert (H : remove_first endpoint (endpoints fw ++ [endpoint])
              = endpoints fw).
  { induction (endpoints fw) as [|x l IH]; simpl.
    - by rewrite String.eqb_refl.
    - apply not_elem_of_cons in Hnin as [Hne Hnin].
      destruct (String.eqb_spec x endpoint) as [->|_]; [done|].
      by rewrite IH. }
  rewrite H. by destruct fw.
Qed.

(** X3: a target list without duplicates stays without duplicates under
    [addEndpoint] and [removeEndpoint], and then a removed target is
    really gone. *)
Theorem endpoints_stay_distinct (endpoint : string) (fw : Forwarder) :
  NoDup (endpoints fw) ->
  NoDup (endpoints (addEndpoint endpoint fw)) /\
  NoDup (endpoints (removeEndpoint endpoint fw)) /\
  endpoint ∉ endpoints (removeEndpoint endpoint fw).
Proof.
  intros Hnd. split; [|].
  - destruct (decide (endpoint ∈ endpoints fw)) as [Hin|Hnin].
    + by rewrite addEndpoint_present.
    + rewrite addEndpoint_absent by done. simpl.
      apply NoDup_app. split; [done|]. split.
      * intros x Hx Hx'. apply list_elem_of_singleton in Hx' as ->. done.
      * apply NoDup_singleton.
  - destruct (decide (endpoint ∈ endpoints fw)) as [Hin|Hnin].
    + destruct (remove_first_split endpoint (endpoints fw) Hin)
        as (before & after & Hl & Hb & Hr).
      unfold removeEndpoint. simpl. rewrite Hr. rewrite Hl in Hnd.
      apply NoDup_app in Hnd as (Hnb & Hdisj & Hna).
      apply NoDup_cons in Hna as [Hea Hna].
      split.
      * apply NoDup_app. split; [done|]. split; [|done].
        intros x Hx Hx'. apply (Hdisj x Hx). by right.
      * intros Hin'. apply elem_of_app in Hin' as [?|?]; done.
    + unfold removeEndpoint. simpl. rewrite remove_first_absent by done.
      done.
Qed.

End EndpointList.

(** X1 on the sample forwarder: B is removed, A stays. *)
Lemma removeEndpoint_first_occurrence_witness :
  exists before after,
    EventForwarder.endpoints Sample.forwarder_ab
      = before ++ Sample.target_b :: after /\
    (Sample.target_b ∉ before) /\
    EventForwarder.endpoints
      (EventForwarder.removeEndpoint Sample.target_b Sample.forwarder_ab)
      = before ++ after /\
    EventForwarder.timeout
      (EventForwarder.removeEndpoint Sample.target_b Sample.forwarder_ab)
      = EventForwarder.timeout Sample.forwarder_ab.
Proof.
  apply (proj2 (removeEndpoint_first_occurrence Sample.target_b
                  Sample.forwarder_ab)).
  vm_compute. right. left.
Defined.

Lemma removeEndpoint_addEndpoint_witness :
  EventForwarder.removeEndpoint "http://localhost:6000/c"
    (EventForwarder.addEndpoint "http://localhost:6000/c" Sample.forwarder_ab)
  = Sample.forwarder_ab.
Proof.
  apply (removeEndpoint_addEndpoint "http://localhost:6000/c"
           Sample.forwarder_ab).
  vm_compute. intros H.
  repeat (apply elem_of_cons in H as [H|H]; [discriminate|]).
  inversion H.
Defined.

Lemma endpoints_stay_distinct_witness :
  NoDup (EventForwarder.endpoints
           (EventForwarder.addEndpoint Sample.target_a Sample.forwarder_ab)) /\
  NoDup (EventForwarder.endpoints
           (EventForwarder.removeEndpoint Sample.target_a
              Sample.forwarder_ab)) /\
  Sample.target_a ∉
    EventForwarder.endpoints
      (EventForwarder.removeEndpoint Sample.target_a Sample.forwarder_ab).
Proof.
  apply (endpoints_stay_distinct Sample.target_a Sample.forwarder_ab).
  vm_compute. apply NoDup_cons. split.
  - intros H. apply list_elem_of_singleton in H. discriminate.
  - apply NoDup_singleton.
Defined.

(** With duplicates in the list (which [setEndpoints] allows) only the
    first one goes. *)
Example removeEndpoint_with_duplicates :
  EventForwarder.endpoints
    (EventForwarder.removeEndpoint Sample.target_a
       (EventForwarder.setEndpoints
          [Sample.target_a; Sample.target_b; Sample.target_a]
          Sample.forwarder_ab))
  = [Sample.target_b; Sample.target_a].
Proof. reflexivity. Qed.

(** ** More on forwarding *)

Section ForwardingFacts.
Import Types EventForwarder.
Variable network : string -> WebhookEvent -> Z -> Z * Transport.






End ForwardingFacts.




(** ** Event filters *)

Section EventFilters.
Import Types Filters.

Lemma differs_false (wanted : option string) (actual : string) :
  differs wanted actual = false <-> Spec.admits wanted actual.
Proof.
  unfold differs, Spec.admits. destruct wanted as [s|]; [|done].
  destruct (String.eqb_spec s "") as [->|Hne]; simpl.
  - split; auto.
  - destruct (String.eqb_spec actual s) as [->|Hne']; simpl.
    + split; auto.
    + split; [discriminate | intros [?|?]; done].
Qed.

Lemma headers_loop_spec (event : WebhookEvent)
    (entries : list (string * string)) :
  headers_loop event entries = true <->
  forall key value, (key, value) ∈ entries ->
    headers event !! key = Some value.
Proof.
  induction entries as [|[k v] rest IH]; simpl.
  - split; [intros _ key value H; inversion H | done].
  - unfold header_differs. simpl.
    destruct (headers event !! k) as [actual|] eqn:Hk.
    + destruct (String.eqb_spec actual v) as [->|Hne]; simpl.
      * rewrite IH. split.
        -- intros H key value Hin.
           apply elem_of_cons in Hin as [[= -> ->]|Hin]; [done | by apply H].
        -- intros H key value Hin. apply H. by right.
      * split; [discriminate|]. intros H.
        specialize (H k v (list_elem_of_here _ _)). congruence.
    + split; [discriminate|]. intros H.
      specialize (H k v (list_elem_of_here _ _)). congruence.
Qed.

(** An accepted event has every header the filter lists. *)
Lemma matchesFilter_headers (event : WebhookEvent) (filter : EventFilter)
    (wanted : gmap string string) :
  matchesFilter event filter = true ->
  f_headers filter = Some wanted ->
  forall key value, wanted !! key = Some value ->
    headers event !! key = Some value.
Proof.
  unfold matchesFilter. intros Hm Hf key value Hk.
  destruct (differs (f_source filter) (source event)); [discriminate|].
  destruct (differs (f_endpoint filter) (endpoint event)); [discriminate|].
  destruct (differs (f_method filter) (method event)); [discriminate|].
  rewrite Hf in Hm. rewrite headers_loop_spec in Hm.
  apply Hm. by apply elem_of_map_to_list.
Qed.

(** X8: [matchesFilter] accepts an event exactly when every field of
    the filter that is set and not empty equals the event's field, and
    every header the filter lists is present in the event with the same
    value. In particular a filter with nothing set accepts every event,
    and an empty string in a field constrains nothing. *)
Theorem matchesFilter_spec (event : WebhookEvent) (filter : EventFilter) :
  matchesFilter event filter = true <->
  Spec.admits (f_source filter) (source event) /\
  Spec.admits (f_endpoint filter) (endpoint event) /\
  Spec.admits (f_method filter) (method event) /\
  match f_headers filter with
  | Some wanted => wanted ⊆ headers event
  | None => True
  end.
Proof.
  unfold matchesFilter. rewrite <- !differs_false.
  destruct (differs (f_source filter) (source event));
    [split; [discriminate | intros [? _]; discriminate]|].
  destruct (differs (f_endpoint filter) (endpoint event));
    [split; [discriminate | intros (_ & ? & _); discriminate]|].
  destruct (differs (f_method filter) (method event));
    [split; [discriminate | intros (_ & _ & ? & _); discriminate]|].
  destruct (f_headers filter) as [wanted|]; [|by split].
  rewrite headers_loop_spec, map_subseteq_spec.
  split.
  - intros H. repeat split; try done.
    intros key value Hk. apply H. by apply elem_of_map_to_list.
  - intros (_ & _ & _ & H) key value Hin. apply H.
    by apply elem_of_map_to_list.
Qed.

(** X9: a filter that asks for the actual value of a sensitive header
    never accepts an event built by the gateway: the gateway has
    replaced that value before the event leaves it. *)
Theorem matchesFilter_never_sees_secret (uuidv4 : nat -> string)
    (req : Webhook.Request) (w : Webhook.World) (filter : EventFilter)
    (wanted : gmap string string) (key value : string) :
  f_headers filter = Some wanted ->
  wanted !! key = Some value ->
  Js.toLowerCase key ∈
    ["authorization"; "cookie"; "x-api-key"; "x-auth-token"] ->
  value <> "[REDACTED]" ->
  matchesFilter (Spec.event_of uuidv4 req w) filter = false.
Proof.
  intros Hf Hk Hsens Hv.
  destruct (matchesFilter _ filter) eqn:Hm; [|done].
  pose proof (matchesFilter_headers _ _ _ Hm Hf key value Hk) as Hev.
  unfold Spec.event_of in Hev. simpl in Hev.
  rewrite sanitizeHeaders_lookup in Hev. unfold Spec.redacted_value in Hev.
  rewrite bool_decide_eq_true_2 in Hev by done.
  destruct (Webhook.req_headers req !! key); simpl in Hev; congruence.
Qed.

End EventFilters.

Example matchesFilter_sample :
  Filters.matchesFilter
    (Spec.event_of Sample.uuids Sample.post_github Sample.gateway0)
    Sample.filter_on_json = true.
Proof. vm_compute. reflexivity. Qed.

Lemma matchesFilter_never_sees_secret_witness :
  Filters.matchesFilter
    (Spec.event_of Sample.uuids Sample.post_github Sample.gateway0)
    Sample.filter_on_token = false.
Proof.
  apply (matchesFilter_never_sees_secret Sample.uuids Sample.post_github
           Sample.gateway0 Sample.filter_on_token
           {[ "Authorization" := "Bearer s3cr3t" ]}
           "Authorization" "Bearer s3cr3t").
  - reflexivity.
  - vm_compute. reflexivity.
  - vm_compute. left.
  - discriminate.
Defined.

(** ** More on the ingestion gateway *)

Section GatewayFacts.
Import Types Utils Webhook.
Variable uuidv4 : nat -> string.
Variable eventCallback : option (WebhookEvent -> option string).

(** X10: every call draws exactly one event identifier, whether it is
    acknowledged or fails, never touches the clock, and leaves the
    response sent. *)
Theorem handleWebhook_world req w :
  uuid_count (handleWebhook uuidv4 eventCallback req w).2
    = S (uuid_count w) /\
  now (handleWebhook uuidv4 eventCallback req w).2 = now w /\
  headersSent (handleWebhook uuidv4 eventCallback req w).2 = true.
Proof.
  unfold handleWebhook, handleWebhook_try, handleWebhook_catch, try_catch,
    bind. rewrite build_event_run.
  unfold bodySize, res_status_json, emit, invoke_callback, bind, throw, ret.
  destruct w as [clock count sent effects]. simpl.
  destruct (req_body req) as [|text]; destruct sent; simpl;
    try (destruct eventCallback as [callback|]; simpl;
         try match goal with
             | |- context [callback ?e] => destruct (callback e)
             end; simpl);
    repeat split.
Qed.

(** X11: a call that arrives with its response still unsent is answered
    exactly once: with the 200 acknowledgment of the event built for it
    when the body can be serialized, with the generic 500 otherwise. *)
Theorem handleWebhook_answers_once req w :
  headersSent w = false ->
  Spec.responses (Spec.performed (handleWebhook uuidv4 eventCallback req) w)
  = [ match JSON_stringify (req_body req) with
      | Some _ => (200, AckBody (uuidv4 (uuid_count w)) (now w))
      | None => (500, ErrorBody "Internal server error")
      end ].
Proof.
  intros Hsent. rewrite handleWebhook_performed. cbv zeta. rewrite Hsent.
  destruct (JSON_stringify (req_body req)); [|reflexivity].
  destruct eventCallback as [callback|]; [|reflexivity].
  destruct (callback _); reflexivity.
Qed.

(** X12: when the callback throws, the sender has already been told
    200; the handler logs the error, cannot answer 500 any more, and the
    exception of the second answer escapes it. *)
Theorem throwing_callback_escapes req w callback message text :
  eventCallback = Some callback ->
  callback (Spec.event_of uuidv4 req w) = Some message ->
  headersSent w = false ->
  JSON_stringify (req_body req) = Some text ->
  (handleWebhook uuidv4 eventCallback req w).1
    = inl "Cannot set headers after they are sent to the client" /\
  Spec.responses (Spec.performed (handleWebhook uuidv4 eventCallback req) w)
    = [(200, AckBody (uuidv4 (uuid_count w)) (now w))] /\
  last (Spec.performed (handleWebhook uuidv4 eventCallback req) w)
    = Some (LogError message).
Proof.
  intros Hcb Hthrow Hsent Hbody.
  pose proof (handleWebhook_run uuidv4 eventCallback req w) as Hrun.
  cbv zeta in Hrun. rewrite Hbody, Hsent, Hcb, Hthrow in Hrun.
  rewrite Hcb in *. injection Hrun as Hres Hperf.
  rewrite Hres, Hperf. repeat split.
Qed.

(** The middleware handles POST requests only. Any other method is
    passed on to the next handler: no event id is drawn, nothing is
    answered, the callback is not invoked. *)
Lemma getMiddleware_only_post req w :
  (req_method req = "POST" ->
     getMiddleware uuidv4 eventCallback req w
       = handleWebhook uuidv4 eventCallback req w) /\
  (req_method req <> "POST" ->
     (getMiddleware uuidv4 eventCallback req w).1 = inr tt /\
     Spec.performed (getMiddleware uuidv4 eventCallback req) w = [Next] /\
     uuid_count (getMiddleware uuidv4 eventCallback req w).2 = uuid_count w /\
     headersSent (getMiddleware uuidv4 eventCallback req w).2
       = headersSent w).
Proof.
  unfold getMiddleware. split.
  - intros ->. reflexivity.
  - intros Hne. destruct (String.eqb_spec (req_method req) "POST"); [done|].
    repeat split. unfold Spec.performed, emit. simpl.
    by rewrite drop_app_length.
Qed.

End GatewayFacts.

Lemma handleWebhook_answers_once_witness :
  Spec.responses
    (Spec.performed
       (Webhook.handleWebhook Sample.uuids Sample.quiet_callback
          Sample.post_no_body) Sample.gateway0)
  = [(500, Webhook.ErrorBody "Internal server error")].
Proof.
  exact (handleWebhook_answers_once Sample.uuids Sample.quiet_callback
           Sample.post_no_body Sample.gateway0 eq_refl).
Defined.

Lemma throwing_callback_escapes_witness :
  (Webhook.handleWebhook Sample.uuids Sample.failing_callback
     Sample.post_github Sample.gateway0).1
    = inl "Cannot set headers after they are sent to the client" /\
  Spec.responses
    (Spec.performed
       (Webhook.handleWebhook Sample.uuids Sample.failing_callback
          Sample.post_github) Sample.gateway0)
    = [(200, Webhook.AckBody "event-0" 1700000000000)] /\
  last (Spec.performed
          (Webhook.handleWebhook Sample.uuids Sample.failing_callback
             Sample.post_github) Sample.gateway0)
    = Some (Webhook.LogError "socket closed").
Proof.
  exact (throwing_callback_escapes Sample.uuids Sample.failing_callback
           Sample.post_github Sample.gateway0
           (fun _ => Some "socket closed") "socket closed" "{}"
           eq_refl eq_refl eq_refl eq_refl).
Defined.

Lemma getMiddleware_only_post_witness :
  Spec.performed
    (Webhook.getMiddleware Sample.uuids Sample.quiet_callback
       Sample.get_github) Sample.gateway0 = [Webhook.Next].
Proof.
  apply (proj2 (getMiddleware_only_post Sample.uuids Sample.quiet_callback
                  Sample.get_github Sample.gateway0)).
  discriminate.
Defined.

(** ** The gateway wired to the hub *)

Section Server.
Import Types Webhook AnchrServer.
Variable uuidv4 : nat -> string.

Lemma handleWebhook_final_world eventCallback req w :
  uuid_count (handleWebhook uuidv4 eventCallback req w).2
    = S (uuid_count w).
Proof.
  unfold handleWebhook, handleWebhook_try, handleWebhook_catch, try_catch,
    bind. rewrite build_event_run.
  unfold bodySize, res_status_json, emit, invoke_callback, bind, throw, ret.
  destruct w as [clock count sent effects]. simpl.
  destruct (req_body req) as [|text]; destruct sent; simpl;
    try (destruct eventCallback as [callback|]; simpl;
         try match goal with
             | |- context [callback ?e] => destruct (callback e)
             end; simpl);
    reflexivity.
Qed.

(** What one request does to the hub and to the id counter. *)
Lemma post_run req s :
  hub (post uuidv4 req s)
    = (if Spec.accepted req
       then WebSocketServer.broadcastEvent
              (Spec.event_of uuidv4 req (fresh_response (gateway s))) (hub s)
       else hub s) /\
  uuid_count (gateway (post uuidv4 req s))
    = (if String.eqb (req_method req) "POST"
       then S (uuid_count (gateway s)) else uuid_count (gateway s)).
Proof.
  unfold post, Spec.accepted, getMiddleware.
  destruct (String.eqb (req_method req) "POST"); simpl.
  - split; [|by rewrite handleWebhook_final_world].
    change (drop _ _) with
      (Spec.performed
         (handleWebhook uuidv4 (Some (fun _ => None)) req)
         (fresh_response (gateway s))).
    rewrite handleWebhook_performed. cbv zeta. simpl.
    destruct (JSON_stringify (req_body req)) as [text|]; simpl.
    + rewrite ?bool_decide_eq_true_2 by eauto. reflexivity.
    + rewrite ?bool_decide_eq_false_2 by (intros [? [=]]). reflexivity.
  - split; [|reflexivity]. unfold emit. simpl.
    by rewrite drop_app_length.
Qed.

(** X13: a request is fanned out at most once. A POST whose body can
    be serialized is broadcast exactly once, as the event built for it;
    any other request leaves the hub untouched. *)
Theorem post_broadcasts_once req s :
  hub (post uuidv4 req s)
  = if decide (req_method req = "POST" /\
               is_Some (JSON_stringify (req_body req)))
    then WebSocketServer.broadcastEvent
           (Spec.event_of uuidv4 req (fresh_response (gateway s))) (hub s)
    else hub s.
Proof.
  rewrite (proj1 (post_run req s)). unfold Spec.accepted.
  destruct (String.eqb_spec (req_method req) "POST") as [Hm|Hm]; simpl.
  - case_bool_decide; case_decide; try reflexivity; tauto.
  - case_decide; [tauto | reflexivity].
Qed.

(** X14: nothing a subscriber is sent because of a request carries the
    original value of a sensitive header: in every webhook message the
    request causes, such a header is absent or holds the redaction
    marker. *)
Theorem post_never_leaks_secret req s socketId event key :
  (socketId, WebSocketServer.WebhookMsg event) ∈
    drop (length (WebSocketServer.outbox (hub s)))
         (WebSocketServer.outbox (hub (post uuidv4 req s))) ->
  Js.toLowerCase key ∈
    ["authorization"; "cookie"; "x-api-key"; "x-auth-token"] ->
  headers event !! key = None \/ headers event !! key = Some "[REDACTED]".
Proof.
  rewrite (proj1 (post_run req s)).
  destruct (Spec.accepted req); simpl.
  - rewrite drop_app_length. intros Hin Hsens.
    apply list_elem_of_fmap in Hin as (sid & [= -> ->] & _).
    unfold Spec.event_of. simpl.
    rewrite sanitizeHeaders_lookup. unfold Spec.redacted_value.
    rewrite bool_decide_eq_true_2 by done.
    destruct (req_headers req !! key); simpl; auto.
  - rewrite drop_all. intros Hin. inversion Hin.
Qed.

Lemma broadcast_ids_app (l1 l2 : list WebSocketServer.LogEntry) :
  Spec.broadcast_ids (l1 ++ l2)
  = Spec.broadcast_ids l1 ++ Spec.broadcast_ids l2.
Proof.
  induction l1 as [|[] l1 IH]; simpl; by rewrite ?IH.
Qed.

(** The ids broadcast while serving [reqs] are draws of the generator
    at distinct positions, none of them below the counter at the start
    or at or above the counter at the end. *)
Lemma serve_ids reqs :
  forall s,
    exists new ks,
      WebSocketServer.log (hub (serve uuidv4 reqs s))
        = WebSocketServer.log (hub s) ++ new /\
      Spec.broadcast_ids new = map uuidv4 ks /\
      NoDup ks /\
      Forall (fun k => (uuid_count (gateway s) <= k
                        < uuid_count (gateway (serve uuidv4 reqs s)))%nat) ks /\
      (uuid_count (gateway s)
       <= uuid_count (gateway (serve uuidv4 reqs s)))%nat.
Proof.
  induction reqs as [|req rest IH]; intros s; simpl.
  - exists [], []. rewrite app_nil_r. repeat split; try constructor.
  - destruct (IH (post uuidv4 req s))
      as (new & ks & Hlog & Hids & Hnd & Hrange & Hle).
    destruct (post_run req s) as [Hhub Hcount].
    rewrite Hlog, Hhub. unfold Spec.accepted.
    rewrite Hcount in Hrange, Hle.
    destruct (String.eqb (req_method req) "POST"); simpl.
    + case_bool_decide; simpl.
      * eexists (_ :: new), (uuid_count (gateway s) :: ks).
        rewrite <- app_assoc. split; [reflexivity|]. simpl.
        split; [by rewrite Hids|]. split.
        { apply NoDup_cons. split; [|done]. intros Hin.
          rewrite Forall_forall in Hrange. specialize (Hrange _ Hin). lia. }
        split; [|lia]. constructor; [lia|].
        eapply Forall_impl; [exact Hrange|]. simpl. intros k Hk. lia.
      * exists new, ks. repeat split; try done; [|lia].
        eapply Forall_impl; [exact Hrange|]. simpl. intros k Hk. lia.
    + exists new, ks. by repeat split.
Qed.

(** X15: as long as the generator does not repeat itself, the events
    broadcast while a sequence of requests is served all have different
    ids: each request draws its own. *)
Theorem served_events_have_distinct_ids reqs s :
  (forall m n, uuidv4 m = uuidv4 n -> m = n) ->
  exists new,
    WebSocketServer.log (hub (serve uuidv4 reqs s))
      = WebSocketServer.log (hub s) ++ new /\
    NoDup (Spec.broadcast_ids new).
Proof.
  intros Hinj. destruct (serve_ids reqs s) as (new & ks & Hlog & Hids & Hnd & _).
  exists new. split; [done|]. rewrite Hids.
  apply NoDup_fmap_2; [|done]. intros m n. apply Hinj.
Qed.

End Server.

Example post_reaches_both_subscribers :
  drop 2 (WebSocketServer.outbox
            (AnchrServer.hub
               (AnchrServer.post Sample.uuids Sample.post_github
                  Sample.server0)))
  = [("socket-a", WebSocketServer.WebhookMsg
        (Spec.event_of Sample.uuids Sample.post_github Sample.gateway0));
     ("socket-b", WebSocketServer.WebhookMsg
        (Spec.event_of Sample.uuids Sample.post_github Sample.gateway0))].
Proof. vm_compute. reflexivity. Qed.

Lemma post_never_leaks_secret_witness :
  Types.headers
    (Spec.event_of Sample.uuids Sample.post_github Sample.gateway0)
    !! "Authorization" = None \/
  Types.headers
    (Spec.event_of Sample.uuids Sample.post_github Sample.gateway0)
    !! "Authorization" = Some "[REDACTED]".
Proof.
  apply (post_never_leaks_secret Sample.uuids Sample.post_github
           Sample.server0 "socket-a").
  - vm_compute. left.
  - vm_compute. left.
Defined.

Lemma append_cancel_l (p a b : string) : p +:+ a = p +:+ b -> a = b.
Proof.
  induction p as [|c p IH]; simpl; [done|]. intros [= H]. by apply IH.
Qed.

Lemma sample_uuids_inj (m n : nat) : Sample.uuids m = Sample.uuids n -> m = n.
Proof.
  unfold Sample.uuids. intros H. apply append_cancel_l in H.
  exact (pretty_nat_inj m n H).
Qed.

Lemma served_events_have_distinct_ids_witness :
  exists new,
    WebSocketServer.log
      (AnchrServer.hub
         (AnchrServer.serve Sample.uuids
            [Sample.post_github; Sample.post_no_body; Sample.post_github]
            Sample.server0))
      = WebSocketServer.log (AnchrServer.hub Sample.server0) ++ new /\
    NoDup (Spec.broadcast_ids new).
Proof.
  exact (served_events_have_distinct_ids Sample.uuids
           [Sample.post_github; Sample.post_no_body; Sample.post_github]
           Sample.server0 sample_uuids_inj).
Defined.

(** ** The hub over a run of transport events *)

Section HubRuns.
Import Types WebSocketServer HubRun.

Lemma filter_other_length (l : list string) (s : string) :
  NoDup l -> s ∈ l ->
  S (length (filter (fun x => x <> s) l)) = length l.
Proof.
  induction l as [|x l IH]; intros Hnd Hin; [inversion Hin|].
  apply NoDup_cons in Hnd as [Hx Hnd].
  destruct (decide (x = s)) as [->|Hne].
  - rewrite filter_cons_False by (intros H; by apply H).
    simpl. f_equal. f_equal.
    clear IH Hin Hnd. induction l as [|y l IH]; [done|].
    apply not_elem_of_cons in Hx as [Hy Hx].
    rewrite filter_cons_True by congruence. simpl. f_equal. by apply IH.
  - rewrite filter_cons_True by done. simpl. f_equal.
    apply elem_of_cons in Hin as [->|Hin]; [done|]. by apply IH.
Qed.

(** X16: the connection counter is the number of open connections.
    From a hub whose counter agrees with its set of sockets, and along
    any run in which the transport reports connections of new sockets
    and disconnections of connected ones, the counter keeps agreeing
    and no socket is listed twice. *)
Theorem hub_counts_connections (es : list HubEvent) :
  forall h : Hub,
    activeConnections (stats h) = Z.of_nat (length (sockets h)) ->
    NoDup (sockets h) ->
    Spec.hub_well_formed (sockets h) es ->
    activeConnections (stats (run h es))
      = Z.of_nat (length (sockets (run h es))) /\
    NoDup (sockets (run h es)).
Proof.
  induction es as [|e es IH]; intros h Hcount Hnd Hwf; simpl; [done|].
  destruct e as [now s|s|now s|now|event]; simpl in Hwf.
  - destruct Hwf as [Hfresh Hwf]. apply IH; simpl.
    + rewrite length_app. simpl. lia.
    + apply NoDup_app. split; [done|]. split; [|apply NoDup_singleton].
      intros x Hx Hx'. apply list_elem_of_singleton in Hx' as ->. done.
    + done.
  - destruct Hwf as [Hin Hwf]. apply IH; simpl.
    + pose proof (filter_other_length (sockets h) s Hnd Hin). lia.
    + by apply NoDup_filter.
    + done.
  - destruct Hwf as [_ Hwf]. by apply IH.
  - by apply IH.
  - by apply IH.
Qed.

(** X17: the total-event counter counts the broadcasts. Along any run
    it grows by the number of events handed over for broadcast, and the
    last-event timestamp is that of the most recent one. *)
Theorem hub_counts_broadcasts (es : list HubEvent) :
  forall h : Hub,
    totalEvents (stats (run h es))
      = totalEvents (stats h) + Z.of_nat (length (Spec.broadcasts es)) /\
    lastEvent (stats (run h es))
      = match last (Spec.broadcasts es) with
        | Some event => Some (timestamp event)
        | None => lastEvent (stats h)
        end.
Proof.
  induction es as [|e es IH]; intros h; simpl; [split; [lia | done]|].
  destruct (IH (step h e)) as [Htotal Hlast]. rewrite Htotal, Hlast.
  destruct e as [now s|s|now s|now|event]; simpl; try (split; [lia|done]).
  split; [lia|].
  destruct (Spec.broadcasts es) as [|e' l] eqn:Hb; simpl; [done|].
  destruct (last (e' :: l)) eqn:Hl; [done|].
  apply last_None in Hl. discriminate.
Qed.

Lemma run_startTime (es : list HubEvent) :
  forall h : Hub, startTime (run h es) = startTime h.
Proof.
  induction es as [|e es IH]; intros h; simpl; [done|].
  rewrite IH. by destruct e.
Qed.

(** X18: whatever happens to the hub, [getStats] reports the time
    elapsed since the hub was created, so the reported uptime never
    decreases while the clock does not. *)
Theorem getStats_uptime_monotone (es1 es2 : list HubEvent) (h : Hub)
    (now1 now2 : Z) :
  now1 <= now2 ->
  uptime (getStats now1 (run h es1)) = now1 - startTime h /\
  uptime (getStats now1 (run h es1))
    <= uptime (getStats now2 (run (run h es1) es2)).
Proof.
  intros Hle. simpl. rewrite !run_startTime. lia.
Qed.

Lemma inbox_app socketId (l1 l2 : list (string * Message)) :
  Spec.inbox socketId (l1 ++ l2)
  = Spec.inbox socketId l1 ++ Spec.inbox socketId l2.
Proof.
  induction l1 as [|[s []] l1 IH]; simpl; try done.
  destruct (String.eqb s socketId); simpl; by rewrite IH.
Qed.

Lemma inbox_emit socketId event (l : list string) :
  NoDup l ->
  Spec.inbox socketId (map (fun s => (s, WebhookMsg event)) l)
  = if bool_decide (socketId ∈ l) then [event] else [].
Proof.
  induction l as [|x l IH]; intros Hnd; simpl; [done|].
  apply NoDup_cons in Hnd as [Hx Hnd]. rewrite (IH Hnd).
  destruct (String.eqb_spec x socketId) as [->|Hne].
  - rewrite (bool_decide_eq_false_2 (socketId ∈ l)) by done.
    by rewrite (bool_decide_eq_true_2 (socketId ∈ socketId :: l)) by left.
  - destruct (decide (socketId ∈ l)) as [Hin|Hnin].
    + rewrite (bool_decide_eq_true_2 (socketId ∈ l)) by done.
      by rewrite (bool_decide_eq_true_2 (socketId ∈ x :: l)) by (by right).
    + rewrite (bool_decide_eq_false_2 (socketId ∈ l)) by done.
      rewrite (bool_decide_eq_false_2 (socketId ∈ x :: l)); [done|].
      intros H. apply elem_of_cons in H as [->|H]; done.
Qed.

(** X19: a subscriber is sent an event exactly when it is connected at
    the time of the broadcast, and then once: along a run, the webhook
    messages addressed to a socket are the events broadcast while it was
    connected, in order. Earlier events are not replayed to a socket
    that connects later and later ones do not reach one that has left. *)
Theorem hub_delivers_to_connected (socketId : string) (es : list HubEvent) :
  forall h : Hub,
    NoDup (sockets h) ->
    Spec.hub_well_formed (sockets h) es ->
    Spec.inbox socketId (outbox (run h es))
    = Spec.inbox socketId (outbox h)
        ++ Spec.heard socketId (sockets h) es.
Proof.
  induction es as [|e es IH]; intros h Hnd Hwf; simpl;
    [by rewrite app_nil_r|].
  destruct e as [now s|s|now s|now|event]; simpl in Hwf.
  - destruct Hwf as [Hfresh Hwf]. rewrite IH; simpl.
    + by rewrite inbox_app, app_nil_r.
    + apply NoDup_app. split; [done|]. split; [|apply NoDup_singleton].
      intros x Hx Hx'. apply list_elem_of_singleton in Hx' as ->. done.
    + done.
  - destruct Hwf as [Hin Hwf]. rewrite IH; simpl;
      [done | by apply NoDup_filter | done].
  - destruct Hwf as [_ Hwf]. rewrite IH; simpl; [|done|done].
    by rewrite inbox_app, app_nil_r.
  - by rewrite IH.
  - rewrite IH; simpl; [|done|done].
    by rewrite inbox_app, inbox_emit, app_assoc.
Qed.

End HubRuns.

Lemma hub_counts_connections_witness :
  Types.activeConnections
    (WebSocketServer.stats
       (HubRun.run (WebSocketServer.create 1700000000000) Sample.hub_run))
    = Z.of_nat
        (length (WebSocketServer.sockets
                   (HubRun.run (WebSocketServer.create 1700000000000)
                      Sample.hub_run))) /\
  NoDup (WebSocketServer.sockets
           (HubRun.run (WebSocketServer.create 1700000000000)
              Sample.hub_run)).
Proof.
  apply (hub_counts_connections Sample.hub_run
           (WebSocketServer.create 1700000000000)).
  - reflexivity.
  - apply NoDup_nil_2.
  - vm_compute. repeat split.
    + intros H; inversion H.
    + intros H. apply list_elem_of_singleton in H. discriminate.
    + left.
    + left.
Defined.

Lemma getStats_uptime_monotone_witness :
  Types.uptime
    (WebSocketServer.getStats 1700000000500
       (HubRun.run (WebSocketServer.create 1700000000000) Sample.hub_run))
    = 1700000000500 - 1700000000000 /\
  Types.uptime
    (WebSocketServer.getStats 1700000000500
       (HubRun.run (WebSocketServer.create 1700000000000) Sample.hub_run))
    <= Types.uptime
         (WebSocketServer.getStats 1700000002000
            (HubRun.run
               (HubRun.run (WebSocketServer.create 1700000000000)
                  Sample.hub_run)
               [HubRun.Tick 1700000001500])).
Proof.
  apply (getStats_uptime_monotone Sample.hub_run [HubRun.Tick 1700000001500]
           (WebSocketServer.create 1700000000000)
           1700000000500 1700000002000).
  lia.
Defined.

(** In the sample run socket B, which connected after the first
    broadcast, receives the second event only. *)
Lemma hub_delivers_to_connected_witness :
  Spec.inbox "socket-b"
    (WebSocketServer.outbox
       (HubRun.run (WebSocketServer.create 1700000000000) Sample.hub_run))
  = Spec.inbox "socket-b"
      (WebSocketServer.outbox (WebSocketServer.create 1700000000000))
    ++ Spec.heard "socket-b"
         (WebSocketServer.sockets (WebSocketServer.create 1700000000000))
         Sample.hub_run.
Proof.
  apply (hub_delivers_to_connected "socket-b" Sample.hub_run
           (WebSocketServer.create 1700000000000)).
  - apply NoDup_nil_2.
  - vm_compute. repeat split.
    + intros H; inversion H.
    + intros H. apply list_elem_of_singleton in H. discriminate.
    + left.
    + left.
Defined.

Example hub_run_inboxes :
  Spec.inbox "socket-a"
    (WebSocketServer.outbox
       (HubRun.run (WebSocketServer.create 1700000000000) Sample.hub_run))
    = [Sample.event_on "/github"] /\
  Spec.inbox "socket-b"
    (WebSocketServer.outbox
       (HubRun.run (WebSocketServer.create 1700000000000) Sample.hub_run))
    = [Sample.event_on "/stripe"].
Proof. split; reflexivity. Qed.

(** ** The subscriber session over a run of transport events *)

Section SessionRuns.
Import Types WebSocketClient SessionRun.

Lemma handle_callbacks now e c :
  statusCallback (handle now e c).1 = statusCallback c /\
  eventCallback (handle now e c).1 = eventCallback c.
Proof. by destruct e. Qed.

Lemma status_reports_app (l1 l2 : list Effect) :
  Spec.status_reports (l1 ++ l2)
  = Spec.status_reports l1 ++ Spec.status_reports l2.
Proof. induction l1 as [|[] l1 IH]; simpl; by rewrite ?IH. Qed.

Lemma event_reports_app (l1 l2 : list Effect) :
  Spec.event_reports (l1 ++ l2)
  = Spec.event_reports l1 ++ Spec.event_reports l2.
Proof. induction l1 as [|[] l1 IH]; simpl; by rewrite ?IH. Qed.

Lemma handle_event_reports now e c :
  Spec.event_reports (handle now e c).2
  = match e with
    | OnWebhook event => if eventCallback c then [event] else []
    | _ => []
    end.
Proof.
  destruct e; simpl; unfold updateStatus; simpl;
    destruct (statusCallback c), (eventCallback c); reflexivity.
Qed.

(** A handler either leaves the status alone and reports nothing, or
    reports the status it leaves. *)
Lemma handle_reports now e c :
  statusCallback c = true ->
  (Spec.status_reports (handle now e c).2 = [] /\
   status (handle now e c).1 = status c) \/
  Spec.status_reports (handle now e c).2 = [status (handle now e c).1].
Proof.
  intros Hcb. destruct e; simpl; unfold updateStatus; simpl; rewrite ?Hcb;
    simpl; auto.
  left. split; [|done]. by destruct (eventCallback c).
Qed.

Lemma run_reports (es : list (Z * SocketEvent)) :
  forall c,
    statusCallback c = true ->
    match last (Spec.status_reports (run es c).2) with
    | Some reported => reported = status (run es c).1
    | None => status (run es c).1 = status c
    end.
Proof.
  induction es as [|[now e] es IH]; intros c Hcb; simpl; [done|].
  pose proof (handle_reports now e c Hcb) as Hstep.
  pose proof (proj1 (handle_callbacks now e c)) as Hcb1.
  destruct (handle now e c) as [c1 out1]. simpl in *.
  rewrite Hcb in Hcb1. specialize (IH c1 Hcb1).
  destruct (run es c1) as [c2 out2]. simpl in *.
  rewrite status_reports_app.
  destruct (last (Spec.status_reports out2)) as [reported|] eqn:Hlast.
  - apply last_Some in Hlast as [l' Hl']. rewrite Hl', app_assoc, last_snoc.
    done.
  - apply last_None in Hlast. rewrite Hlast, app_nil_r.
    destruct Hstep as [[-> Hsame] | ->]; simpl; congruence.
Qed.

(** X20: the status callback is never left with stale news. With a
    callback registered, after any run of transport events the status
    most recently reported to it is the session's current status. *)
Theorem status_callback_never_stale (es : list (Z * SocketEvent))
    (c : Client) (reported : ConnectionStatus) :
  statusCallback c = true ->
  last (Spec.status_reports (run es c).2) = Some reported ->
  reported = status (run es c).1.
Proof.
  intros Hcb Hlast. pose proof (run_reports es c Hcb) as H.
  by rewrite Hlast in H.
Qed.

(** X21: a session that says it is connected is in good standing: after
    any run of transport events on a new session, if the status says
    connected then no error is recorded and the time of the last
    connection is known. *)
Theorem connected_session_has_no_error (es : list (Z * SocketEvent))
    (config : ClientConfig) :
  connected (status (run es (create config)).1) = true ->
  error (status (run es (create config)).1) = None /\
  is_Some (lastConnected (status (run es (create config)).1)).
Proof.
  assert (Hinv : forall es c,
    (connected (status c) = true ->
     error (status c) = None /\ is_Some (lastConnected (status c))) ->
    connected (status (run es c).1) = true ->
    error (status (run es c).1) = None /\
    is_Some (lastConnected (status (run es c).1))).
  { clear. induction es as [|[now e] es IH]; intros c Hc; simpl; [done|].
    assert (Hc1 : connected (status (handle now e c).1) = true ->
                  error (status (handle now e c).1) = None /\
                  is_Some (lastConnected (status (handle now e c).1))).
    { destruct e; simpl; eauto; try discriminate. }
    specialize (IH (handle now e c).1 Hc1).
    destruct (handle now e c) as [c1 out1]. simpl in *.
    destruct (run es c1) as [c2 out2]. exact IH. }
  apply Hinv. simpl. discriminate.
Qed.

(** X22: the session's own attempt counter counts connection errors and
    nothing ever resets it, not even a successful connection. *)
Theorem attempt_field_counts_errors (es : list (Z * SocketEvent))
    (c : Client) :
  reconnectAttempts_field (run es c).1
  = reconnectAttempts_field c + Z.of_nat (Spec.connect_errors es).
Proof.
  revert c. induction es as [|[now e] es IH]; intros c; simpl; [lia|].
  specialize (IH (handle now e c).1).
  destruct (handle now e c) as [c1 out1] eqn:Hh. simpl in IH.
  destruct (run es c1) as [c2 out2]. simpl in *. rewrite IH.
  destruct e; simpl in Hh; injection Hh as <- _; simpl; lia.
Qed.

(** X23: every webhook message the transport delivers is handed to the
    event callback, in order and whatever the connection status says,
    and nothing else is: with a callback registered the events it
    receives are the webhook messages of the run; without one, none. *)
Theorem event_callback_gets_every_webhook (es : list (Z * SocketEvent))
    (c : Client) :
  Spec.event_reports (run es c).2
  = if eventCallback c then Spec.webhooks es else [].
Proof.
  revert c. induction es as [|[now e] es IH]; intros c; simpl.
  - by destruct (eventCallback c).
  - specialize (IH (handle now e c).1).
    rewrite (proj2 (handle_callbacks now e c)) in IH.
    pose proof (handle_event_reports now e c) as Hstep.
    destruct (handle now e c) as [c1 out1]. simpl in IH, Hstep.
    destruct (run es c1) as [c2 out2]. simpl in *.
    rewrite event_reports_app, IH, Hstep.
    destruct e; simpl; try reflexivity.
    by destruct (eventCallback c).
Qed.

(** X24: what [disconnect()] leaves behind. It never touches the
    attempt count, after it [ping] sends nothing, and a second call
    does nothing at all, as does a call without a socket. With a socket
    that is not connected it marks the session disconnected, keeps the
    recorded error and reports to the status callback once. With a
    connected socket, closing it makes the socket emit ['disconnect']
    first: the session records the reason ["io client disconnect"] as
    its last error and the status callback is told twice, both times
    the final status. *)
Theorem disconnect_spec (c : Client) :
  reconnectAttempts (status (disconnect c).1)
    = reconnectAttempts (status c) /\
  ping (disconnect c).1 = [] /\
  disconnect (disconnect c).1 = ((disconnect c).1, []) /\
  (socket c = NoSocket -> disconnect c = (c, [])) /\
  (socket c = Socket false ->
     connected (status (disconnect c).1) = false /\
     error (status (disconnect c).1) = error (status c) /\
     Spec.status_reports (disconnect c).2
       = (if statusCallback c then [status (disconnect c).1] else [])) /\
  (socket c = Socket true ->
     connected (status (disconnect c).1) = false /\
     error (status (disconnect c).1) = Some "io client disconnect" /\
     Spec.status_reports (disconnect c).2
       = (if statusCallback c
          then [status (disconnect c).1; status (disconnect c).1]
          else [])).
Proof.
  unfold disconnect, ping, on_disconnect, updateStatus.
  destruct (socket c) as [|[]] eqn:Hs; simpl; rewrite ?Hs;
    repeat split; try done;
    destruct (statusCallback c); reflexivity.
Qed.

(** X25: the transport is never opened with zero reconnection attempts
    or a zero delay: a configured 0 counts as unset, so the defaults 5
    and 1000 apply. *)
Theorem connect_options_never_zero (c : Client) :
  exists attempts delay,
    (connect c).2
      = [Log Info ("Connecting to " +:+ serverUrl (config c) +:+ "...");
         OpenSocket (serverUrl (config c)) attempts delay] /\
    attempts <> 0 /\ delay <> 0 /\
    (maxRetries (config c) = Some 0 \/ maxRetries (config c) = None ->
       attempts = 5) /\
    (reconnectInterval (config c) = Some 0 \/
     reconnectInterval (config c) = None -> delay = 1000).
Proof.
  eexists _, _. split; [reflexivity|]. unfold Js.num_or.
  repeat split.
  - destruct (maxRetries (config c)) as [n|]; [|done].
    destruct (Z.eqb_spec n 0); done.
  - destruct (reconnectInterval (config c)) as [n|]; [|done].
    destruct (Z.eqb_spec n 0); done.
  - intros [->| ->]; reflexivity.
  - intros [->| ->]; reflexivity.
Qed.

(** X26: what the CLI prints for the status reports of the session.
    While it is running, a drop prints the reason, followed by the
    attempt count when it is positive; a reconnection reported with a
    positive attempt number prints the reconnected line; the first
    connection prints nothing; and before the CLI is running a drop
    prints nothing either. *)
Theorem cli_lines_for_session_events (now : Z) (c : Client) :
  (forall reason,
      AnchrCLI.handleStatusChange true
        (status (handle now (OnDisconnect reason) c).1)
      = AnchrCLI.DisconnectedLine (Some reason)
          :: (if 0 <? reconnectAttempts (status c)
              then [AnchrCLI.AttemptLine (reconnectAttempts (status c))]
              else []) /\
      AnchrCLI.handleStatusChange false
        (status (handle now (OnDisconnect reason) c).1) = []) /\
  (forall attemptNumber isRunning,
      0 < attemptNumber ->
      AnchrCLI.handleStatusChange isRunning
        (status (handle now (OnReconnect attemptNumber) c).1)
      = [AnchrCLI.ReconnectedLine]) /\
  (forall isRunning,
      AnchrCLI.handleStatusChange isRunning
        (status (handle now OnConnect c).1) = []).
Proof.
  split; [|split].
  - intros reason. split; reflexivity.
  - intros attemptNumber isRunning Hpos.
    unfold AnchrCLI.handleStatusChange. simpl.
    by replace (0 <? attemptNumber) with true
      by (symmetry; apply Z.ltb_lt; lia).
  - reflexivity.
Qed.

End SessionRuns.

Lemma status_callback_never_stale_witness :
  {| Types.connected := true;
     Types.lastConnected := Some 1700000002400;
     Types.reconnectAttempts := 2;
     Types.error := None |}
  = WebSocketClient.status
      (SessionRun.run Sample.session_run Sample.session0).1.
Proof.
  apply (status_callback_never_stale Sample.session_run Sample.session0);
    reflexivity.
Defined.

Lemma connected_session_has_no_error_witness :
  Types.error
    (WebSocketClient.status
       (SessionRun.run Sample.session_run
          (WebSocketClient.create Sample.session_config)).1) = None /\
  is_Some
    (Types.lastConnected
       (WebSocketClient.status
          (SessionRun.run Sample.session_run
             (WebSocketClient.create Sample.session_config)).1)).
Proof.
  apply (connected_session_has_no_error Sample.session_run
           Sample.session_config).
  reflexivity.
Defined.

(** X24 on a connected session and on one that is reconnecting. *)
Lemma disconnect_spec_witness :
  (Types.error
     (WebSocketClient.status
        (WebSocketClient.disconnect Sample.session_connected).1)
     = Some "io client disconnect" /\
   Spec.status_reports
     (WebSocketClient.disconnect Sample.session_connected).2
     = [WebSocketClient.status
          (WebSocketClient.disconnect Sample.session_connected).1;
        WebSocketClient.status
          (WebSocketClient.disconnect Sample.session_connected).1]) /\
  (Types.error
     (WebSocketClient.status
        (WebSocketClient.disconnect Sample.session_reconnecting).1)
     = Some "transport close" /\
   Spec.status_reports
     (WebSocketClient.disconnect Sample.session_reconnecting).2
     = [WebSocketClient.status
          (WebSocketClient.disconnect Sample.session_reconnecting).1]).
Proof.
  split.
  - exact (proj2 (proj2 (proj2 (proj2 (proj2 (proj2
      (disconnect_spec Sample.session_connected))))) eq_refl)).
  - exact (proj2 (proj1 (proj2 (proj2 (proj2 (proj2
      (disconnect_spec Sample.session_reconnecting))))) eq_refl)).
Defined.

Lemma cli_lines_for_session_events_witness :
  AnchrCLI.handleStatusChange true
    (WebSocketClient.status
       (WebSocketClient.handle 1700000005000 (WebSocketClient.OnReconnect 3)
          Sample.session_reconnecting).1)
  = [AnchrCLI.ReconnectedLine].
Proof.
  apply (proj1 (proj2 (cli_lines_for_session_events 1700000005000
                         Sample.session_reconnecting)) 3 true).
  lia.
Defined.

Example session_run_sample :
  Spec.event_reports (SessionRun.run Sample.session_run Sample.session0).2
    = [Sample.event_on "/github"; Sample.event_on "/stripe"] /\
  WebSocketClient.reconnectAttempts_field
    (SessionRun.run Sample.session_run Sample.session0).1 = 1.
Proof. split; reflexivity. Qed.
